(** * Book Collection API (lecture_5/book_api)

    A shallow embedding of the book persistence and query core:
    [models.py] (the [Book] row and its attribute validators),
    [schemas.py] (the pydantic request and response schemas),
    [crud.py] (the repository, [BookCRUD]) and the handlers of [main.py]
    that wrap it.

    Conventions.
    - A Python [str] is a list of Unicode code points ([N]).
    - A Python [int] is a [Z]; [//] on a positive divisor is [Z.div].
    - [None] is [None]; an [Optional] attribute is an [option].
    - An exception is the [Raise] branch of [result].
    - The SQLite table [books] is the list of its rows; a SQLAlchemy session
      is the pair of the committed rows and the session's working copy.
    - SQLite integers are signed 64-bit: the driver raises [OverflowError]
      when it is given a Python [int] outside that range to bind.
    - SQLite holds text in UTF-8 and refuses a LIKE pattern of more than
      50000 bytes with [OperationalError] when it comes to test it. *)

From Stdlib Require Import String Ascii.
From Stdlib Require Import ZArith NArith List Bool Lia.
From Stdlib Require Import Sorting.Sorted Sorting.Permutation.
Import ListNotations.
Local Open Scope string_scope.
Local Open Scope list_scope.
Local Open Scope Z_scope.

(** ** Exceptions *)

Inductive result (E A : Type) : Type :=
| Ok (a : A)
| Raise (e : E).
Arguments Ok {E A} a.
Arguments Raise {E A} e.

Definition bind {E A B : Type} (r : result E A) (k : A -> result E B)
  : result E B :=
  match r with
  | Ok a => k a
  | Raise e => Raise e
  end.

Notation "x <- r ;; k" := (bind r (fun x => k))
  (at level 61, r at next level, right associativity).

(** ** Python strings *)

Definition str : Type := list N.

(** An ASCII literal as a [str]. *)
Definition py (s : string) : str :=
  List.map N_of_ascii (list_ascii_of_string s).

Definition in_range (lo hi c : N) : bool := ((lo <=? c) && (c <=? hi))%N.

(** The Unicode property White_Space: the characters that the [trim] of
    pydantic-core removes when [str_strip_whitespace] is set. *)
Definition White_Space (c : N) : bool :=
  in_range 0x09 0x0D c || (c =? 0x20)%N || (c =? 0x85)%N || (c =? 0xA0)%N
  || (c =? 0x1680)%N || in_range 0x2000 0x200A c || (c =? 0x2028)%N
  || (c =? 0x2029)%N || (c =? 0x202F)%N || (c =? 0x205F)%N
  || (c =? 0x3000)%N.

(** [str.isspace] on one character: White_Space and the four separators
    U+001C..U+001F.  These are the characters [str.strip()] removes. *)
Definition isspace (c : N) : bool :=
  White_Space c || in_range 0x1C 0x1F c.

Section Strip.
Variable ws : N -> bool.

Fixpoint lstrip (s : str) : str :=
  match s with
  | [] => []
  | c :: s' => if ws c then lstrip s' else s
  end.

Definition rstrip (s : str) : str := rev (lstrip (rev s)).

Definition strip (s : str) : str := rstrip (lstrip s).
End Strip.

(** [not s] for a string. *)
Definition falsy (s : str) : bool :=
  match s with
  | [] => true
  | _ :: _ => false
  end.

(** ** Errors *)

(** One line of a pydantic [ValidationError]: where and which constraint. *)
Inductive ErrorType : Type :=
| string_too_short
| string_too_long
| value_error
| less_than_equal
| greater_than_equal.

Record ErrorDetails : Type := mkError { loc : string; type : ErrorType }.

(** [ValueError], by message.  pydantic's [ValidationError] is a subclass. *)
Inductive ValueError : Type :=
| Book_title_cannot_be_empty
| Book_title_too_long
| Author_name_cannot_be_empty
| Author_name_too_long
| Year_must_be_between_1000_and (hi : Z)
| ValidationError (errors : list ErrorDetails).

(** What the execution of a statement raises, by message: the
    [OverflowError] of the sqlite3 driver for a parameter that does not fit
    a signed 64-bit integer, and the [OperationalError] of SQLite for a
    LIKE pattern that is too long. *)
Inductive ExecuteError : Type :=
| Python_int_too_large_to_convert_to_SQLite_INTEGER
| LIKE_or_GLOB_pattern_too_complex.

(** What the repository can raise. *)
Inductive Exception : Type :=
| is_ValueError (e : ValueError)
| is_ExecuteError (e : ExecuteError).

Definition error_at {A : Type} (l : string) (r : result ErrorType A)
  : list ErrorDetails :=
  match r with
  | Ok _ => []
  | Raise ty => [mkError l ty]
  end.

(** ** models.py *)

Module Book.

Record t : Type := mk {
  id : Z;
  title : str;
  author : str;
  year : option Z
}.

Definition validate_title (title : str) : result ValueError str :=
  if falsy title || falsy (strip isspace title) then
    Raise Book_title_cannot_be_empty
  else if (255 <? length (strip isspace title))%nat then
    Raise Book_title_too_long
  else Ok (strip isspace title).

Definition validate_author (author : str) : result ValueError str :=
  if falsy author || falsy (strip isspace author) then
    Raise Author_name_cannot_be_empty
  else if (255 <? length (strip isspace author))%nat then
    Raise Author_name_too_long
  else Ok (strip isspace author).

(** [current_year] is [datetime.now().year], read when the validator
    runs; [datetime] has no year above 9999, so a year that passes fits
    the integer column. *)
Definition validate_year (current_year : Z) (year : option Z)
  : result ValueError (option Z) :=
  match year with
  | Some y =>
      if (y <? 1000) || (current_year + 2 <? y) then
        Raise (Year_must_be_between_1000_and (current_year + 2))
      else Ok year
  | None => Ok year
  end.

(** Attribute assignment runs the [@validates] hook of the attribute and
    stores what the hook returns. *)
Definition set_title (b : t) (v : str) : result ValueError t :=
  v' <- validate_title v ;; Ok (mk (id b) v' (author b) (year b)).

Definition set_author (b : t) (v : str) : result ValueError t :=
  v' <- validate_author v ;; Ok (mk (id b) (title b) v' (year b)).

Definition set_year (current_year : Z) (b : t) (v : option Z)
  : result ValueError t :=
  v' <- validate_year current_year v ;; Ok (mk (id b) (title b) (author b) v').

End Book.

(** ** schemas.py *)

(** A [str] field with [str_strip_whitespace], [min_length], [max_length]. *)
Definition constrained_str (min_length max_length : nat) (v : str)
  : result ErrorType str :=
  let v := strip White_Space v in
  if (length v <? min_length)%nat then Raise string_too_short
  else if (max_length <? length v)%nat then Raise string_too_long
  else Ok v.

(** An [int] field with [ge] and [le]. *)
Definition constrained_int (ge le v : Z) : result ErrorType Z :=
  if le <? v then Raise less_than_equal
  else if v <? ge then Raise greater_than_equal
  else Ok v.

Definition optional {A : Type} (f : A -> result ErrorType A) (v : option A)
  : result ErrorType (option A) :=
  match v with
  | None => Ok None
  | Some a => a' <- f a ;; Ok (Some a')
  end.

(** [import_year] is [datetime.now().year] as read once, when the class body
    of the schema is evaluated. *)
Module BookBase.

Record t : Type := mk { title : str; author : str; year : option Z }.

Definition validate_title (v : str) : result ErrorType str :=
  let v := strip isspace v in
  if falsy v then Raise value_error else Ok v.

Definition validate_author (v : str) : result ErrorType str :=
  let v := strip isspace v in
  if falsy v then Raise value_error else Ok v.

Definition title_field (v : str) : result ErrorType str :=
  v <- constrained_str 1 255 v ;; validate_title v.

Definition author_field (v : str) : result ErrorType str :=
  v <- constrained_str 1 255 v ;; validate_author v.

Definition year_field (import_year : Z) (v : option Z)
  : result ErrorType (option Z) :=
  optional (constrained_int 1000 (import_year + 2)) v.

(** Every field is validated; the errors of all fields are reported. *)
Definition model_validate (import_year : Z)
    (title author : str) (year : option Z)
  : result (list ErrorDetails) t :=
  match title_field title, author_field author,
        year_field import_year year with
  | Ok t', Ok a', Ok y' => Ok (mk t' a' y')
  | rt, ra, ry =>
      Raise (error_at "title" rt ++ error_at "author" ra
             ++ error_at "year" ry)
  end.

End BookBase.

Module BookCreate.
Definition t : Type := BookBase.t.
Definition model_validate := BookBase.model_validate.
End BookCreate.

(** One entry of [book_update.dict(exclude_unset=True)]. *)
Inductive item : Type :=
| title_item (value : option str)
| author_item (value : option str)
| year_item (value : option Z).

Module BookUpdate.

(** A field is [None] when it is not in [model_fields_set], [Some None]
    when it was given as null, [Some (Some v)] when it was given as [v]. *)
Record t : Type := mk {
  title : option (option str);
  author : option (option str);
  year : option (option Z)
}.

Definition title_field (v : option str) : result ErrorType (option str) :=
  optional (constrained_str 1 255) v.

Definition author_field (v : option str) : result ErrorType (option str) :=
  optional (constrained_str 1 255) v.

Definition year_field (import_year : Z) (v : option Z)
  : result ErrorType (option Z) :=
  optional (constrained_int 1000 (import_year + 2)) v.

Definition model_validate (import_year : Z) (raw : t)
  : result (list ErrorDetails) t :=
  match optional title_field (title raw),
        optional author_field (author raw),
        optional (year_field import_year) (year raw) with
  | Ok t', Ok a', Ok y' => Ok (mk t' a' y')
  | rt, ra, ry =>
      Raise (error_at "title" rt ++ error_at "author" ra
             ++ error_at "year" ry)
  end.

Definition given {A : Type} (f : option A -> item) (v : option (option A))
  : list item :=
  match v with
  | Some value => [f value]
  | None => []
  end.

(** [self.dict(exclude_unset=True)], in field order. *)
Definition dict_exclude_unset (u : t) : list item :=
  given title_item (title u) ++ given author_item (author u)
  ++ given year_item (year u).

End BookUpdate.

Module BookResponse.

Record t : Type := mk {
  id : Z;
  title : str;
  author : str;
  year : option Z
}.

(** [BookResponse.model_validate(db_book)], from the attributes. *)
Definition model_validate (import_year : Z) (b : Book.t)
  : result (list ErrorDetails) t :=
  match BookBase.title_field (Book.title b),
        BookBase.author_field (Book.author b),
        BookBase.year_field import_year (Book.year b) with
  | Ok t', Ok a', Ok y' => Ok (mk (Book.id b) t' a' y')
  | rt, ra, ry =>
      Raise (error_at "title" rt ++ error_at "author" ra
             ++ error_at "year" ry)
  end.

End BookResponse.

Module BooksResponse.
Record t : Type := mk {
  books : list BookResponse.t;
  total : Z;
  page : Z;
  page_size : Z;
  total_pages : Z
}.
End BooksResponse.

Module SearchQuery.
Record t : Type := mk {
  title : option str;
  author : option str;
  year : option Z;
  year_from : option Z;
  year_to : option Z;
  page : Z;
  page_size : Z
}.
End SearchQuery.

(** ** The SQLite store *)

(** SQLite's [lower()] folds the 26 ASCII capitals only. *)
Definition lower_char (c : N) : N :=
  if in_range 65 90 c then (c + 32)%N else c.

Definition lower (s : str) : str := List.map lower_char s.

Definition percent : N := 37.
Definition underscore : N := 95.

(** SQLite hands the operands of LIKE to its matcher as C strings: each
    is read up to its first U+0000. *)
Fixpoint c_str (s : str) : str :=
  match s with
  | [] => []
  | c :: s' => if (c =? 0)%N then [] else c :: c_str s'
  end.

(** The matcher of LIKE: [%] matches any run of characters, [_] any one
    character, every other character itself, ASCII case folded.  No ESCAPE
    clause is in use. *)
Fixpoint patternCompare (pattern : str) : str -> bool :=
  match pattern with
  | [] => fun s => falsy s
  | c :: p =>
      if (c =? percent)%N then
        fix any_run (s : str) : bool :=
          patternCompare p s || match s with
                                | [] => false
                                | _ :: s' => any_run s'
                                end
      else if (c =? underscore)%N then
        fun s => match s with
                 | [] => false
                 | _ :: s' => patternCompare p s'
                 end
      else
        fun s => match s with
                 | [] => false
                 | d :: s' =>
                     (lower_char c =? lower_char d)%N && patternCompare p s'
                 end
  end.

(** The bytes of a character, and of a string, in UTF-8. *)
Definition utf8_len (c : N) : N :=
  (if c <? 0x80 then 1 else if c <? 0x800 then 2
   else if c <? 0x10000 then 3 else 4)%N.

Definition utf8_bytes (s : str) : N :=
  fold_right (fun c n => (utf8_len c + n)%N) 0%N s.

(** The longest pattern, in bytes, that LIKE takes: a longer one makes the
    statement fail with "LIKE or GLOB pattern too complex" as soon as the
    term is tested on a row. *)
Definition SQLITE_MAX_LIKE_PATTERN_LENGTH : N := 50000.

Definition too_complex (pattern : str) : bool :=
  (SQLITE_MAX_LIKE_PATTERN_LENGTH <? utf8_bytes pattern)%N.

(** [s LIKE pattern] is true. *)
Definition like (pattern s : str) : bool :=
  negb (too_complex pattern) && patternCompare (c_str pattern) (c_str s).

(** [column.ilike(pattern)]; SQLAlchemy renders it for SQLite as
    [lower(column) LIKE lower(pattern)]. *)
Definition ilike (column pattern : str) : bool :=
  like (lower pattern) (lower column).

(** Comparisons of the nullable column [year]; a comparison with NULL is not
    true, so the row is not selected. *)
Definition year_eq (column : option Z) (v : Z) : bool :=
  match column with
  | Some y => y =? v
  | None => false
  end.

Definition year_ge (column : option Z) (v : Z) : bool :=
  match column with
  | Some y => v <=? y
  | None => false
  end.

Definition year_le (column : option Z) (v : Z) : bool :=
  match column with
  | Some y => y <=? v
  | None => false
  end.

Definition year_between (column : option Z) (lo hi : Z) : bool :=
  match column with
  | Some y => (lo <=? y) && (y <=? hi)
  | None => false
  end.

(** A Python [int] as a parameter of a statement. *)
Definition in_int64 (v : Z) : bool := (- 2 ^ 63 <=? v) && (v <? 2 ^ 63).

Definition sqlite_int (v : Z) : result ExecuteError Z :=
  if in_int64 v then Ok v
  else Raise Python_int_too_large_to_convert_to_SQLite_INTEGER.

(** All the parameters of one statement. *)
Fixpoint sqlite_ints (vs : list Z) : result ExecuteError unit :=
  match vs with
  | [] => Ok tt
  | v :: vs' => _ <- sqlite_int v ;; sqlite_ints vs'
  end.

(** [ORDER BY id]. *)
Fixpoint insert_by_id (b : Book.t) (rows : list Book.t) : list Book.t :=
  match rows with
  | [] => [b]
  | r :: rows' =>
      if Book.id b <=? Book.id r then b :: rows
      else r :: insert_by_id b rows'
  end.

Definition order_by_id (rows : list Book.t) : list Book.t :=
  fold_right insert_by_id [] rows.

(** [OFFSET n]: a negative offset counts as zero. *)
Definition offset (n : Z) (rows : list Book.t) : list Book.t :=
  skipn (Z.to_nat n) rows.

(** [LIMIT n]: a negative limit is no limit. *)
Definition limit (n : Z) (rows : list Book.t) : list Book.t :=
  if n <? 0 then rows else firstn (Z.to_nat n) rows.

(** The rowid of an INSERT that gives none.  The column is declared
    [Integer, primary_key=True, autoincrement=True] and the table has no
    [sqlite_autoincrement] flag, so the DDL is [INTEGER NOT NULL PRIMARY KEY]
    without the AUTOINCREMENT keyword: SQLite takes one more than the largest
    rowid in the table, and 1 in an empty table.  (Rowids are 64-bit; their
    upper end is out of the reach of a table filled one INSERT at a time.) *)
Fixpoint max_rowid (rows : list Book.t) : option Z :=
  match rows with
  | [] => None
  | r :: rows' =>
      match max_rowid rows' with
      | None => Some (Book.id r)
      | Some m => Some (Z.max (Book.id r) m)
      end
  end.

Definition next_rowid (rows : list Book.t) : Z :=
  match max_rowid rows with
  | None => 1
  | Some m => m + 1
  end.

(** A session: the rows committed to [books.db] and the rows as this
    session holds them (loaded objects with their unflushed changes). *)
Module Session.

Record t : Type := mk {
  committed : list Book.t;
  working : list Book.t
}.

(** [SessionLocal()] *)
Definition local (table : list Book.t) : t := mk table table.

Definition commit (db : t) : t := mk (working db) (working db).

(** [db.close()] ends the transaction; what was not committed is lost.
    The table is what remains. *)
Definition close (db : t) : list Book.t := committed db.

(** [db.add(obj)], with the INSERT of the flush that follows it. *)
Definition add (db : t) (title author : str) (year : option Z)
  : t * Book.t :=
  let obj := Book.mk (next_rowid (working db)) title author year in
  (mk (committed db) (working db ++ [obj]), obj).

(** The object [obj], loaded from this session, has been assigned to:
    the session's row with its primary key is that object. *)
Definition assign (db : t) (obj : Book.t) : t :=
  mk (committed db)
     (List.map (fun r => if Book.id r =? Book.id obj then obj else r)
               (working db)).

(** [db.delete(obj)] *)
Definition delete (db : t) (obj : Book.t) : t :=
  mk (committed db)
     (List.filter (fun r => negb (Book.id r =? Book.id obj)) (working db)).

End Session.

(** ** crud.py *)

(** The value of an optional criterion when Python takes it as true. *)
Definition truthy_str (v : option str) : option str :=
  match v with
  | Some (c :: s) => Some (c :: s)
  | _ => None
  end.

Definition truthy_int (v : option Z) : option Z :=
  match v with
  | Some z => if z =? 0 then None else Some z
  | None => None
  end.

Module BookCRUD.

Definition get_book (db : Session.t) (book_id : Z)
  : result ExecuteError (option Book.t) :=
  _ <- sqlite_int book_id ;;
  Ok (List.find (fun r => Book.id r =? book_id) (Session.working db)).

Definition get_books (db : Session.t) (skip limit_ : Z)
  : result ExecuteError (list Book.t * Z) :=
  let total := Z.of_nat (length (Session.working db)) in
  _ <- sqlite_ints [limit_; skip] ;;
  let books :=
    limit limit_ (offset skip (order_by_id (Session.working db))) in
  Ok (books, total).

Definition create_book (current_year : Z) (db : Session.t)
    (book : BookCreate.t)
  : Session.t * result ValueError Book.t :=
  match
    title <- Book.validate_title (BookBase.title book) ;;
    author <- Book.validate_author (BookBase.author book) ;;
    year <- Book.validate_year current_year (BookBase.year book) ;;
    Ok (title, author, year)
  with
  | Raise e => (db, Raise e)
  | Ok (title, author, year) =>
      let '(db, db_book) := Session.add db title author year in
      let db := Session.commit db in
      (db, Ok db_book)
  end.

(** [if value is not None: setattr(db_book, field, value)] *)
Definition setattr_if_not_None (current_year : Z) (db_book : Book.t)
    (it : item) : result ValueError Book.t :=
  match it with
  | title_item (Some value) => Book.set_title db_book value
  | author_item (Some value) => Book.set_author db_book value
  | year_item (Some value) =>
      Book.set_year current_year db_book (Some value)
  | title_item None | author_item None | year_item None => Ok db_book
  end.

(** The loop over [update_data.items()]: the object as the loop leaves
    it, and the exception that ended the loop, if one did. *)
Fixpoint setattr_loop (current_year : Z) (db_book : Book.t)
    (update_data : list item) : Book.t * option ValueError :=
  match update_data with
  | [] => (db_book, None)
  | it :: rest =>
      match setattr_if_not_None current_year db_book it with
      | Ok db_book' => setattr_loop current_year db_book' rest
      | Raise e => (db_book, Some e)
      end
  end.

Definition update_book (current_year : Z) (db : Session.t) (book_id : Z)
    (book_update : BookUpdate.t)
  : Session.t * result Exception (option Book.t) :=
  match get_book db book_id with
  | Raise e => (db, Raise (is_ExecuteError e))
  | Ok None => (db, Ok None)
  | Ok (Some db_book) =>
      let update_data := BookUpdate.dict_exclude_unset book_update in
      let '(db_book, raised) :=
        setattr_loop current_year db_book update_data in
      let db := Session.assign db db_book in
      match raised with
      | Some e => (db, Raise (is_ValueError e))
      | None =>
          let db := Session.commit db in
          (db, Ok (Some db_book))
      end
  end.

Definition delete_book (db : Session.t) (book_id : Z)
  : Session.t * result ExecuteError bool :=
  match get_book db book_id with
  | Raise e => (db, Raise e)
  | Ok None => (db, Ok false)
  | Ok (Some db_book) =>
      let db := Session.delete db db_book in
      let db := Session.commit db in
      (db, Ok true)
  end.

(** The list [filters] of [search_books]. *)
Definition filters (search_query : SearchQuery.t)
  : list (Book.t -> bool) :=
  (match truthy_str (SearchQuery.title search_query) with
   | Some title =>
       [fun r => ilike (Book.title r) (percent :: title ++ [percent])]
   | None => []
   end)
  ++ (match truthy_str (SearchQuery.author search_query) with
      | Some author =>
          [fun r => ilike (Book.author r) (percent :: author ++ [percent])]
      | None => []
      end)
  ++ (match truthy_int (SearchQuery.year search_query) with
      | Some year => [fun r => year_eq (Book.year r) year]
      | None => []
      end)
  ++ (match truthy_int (SearchQuery.year_from search_query),
            truthy_int (SearchQuery.year_to search_query) with
      | Some year_from, Some year_to =>
          [fun r => year_between (Book.year r) year_from year_to]
      | Some year_from, None => [fun r => year_ge (Book.year r) year_from]
      | None, Some year_to => [fun r => year_le (Book.year r) year_to]
      | None, None => []
      end).

(** The integers that the filters in force bind. *)
Definition parameters (search_query : SearchQuery.t) : list Z :=
  (match truthy_int (SearchQuery.year search_query) with
   | Some year => [year]
   | None => []
   end)
  ++ (match truthy_int (SearchQuery.year_from search_query),
            truthy_int (SearchQuery.year_to search_query) with
      | Some year_from, Some year_to => [year_from; year_to]
      | Some year_from, None => [year_from]
      | None, Some year_to => [year_to]
      | None, None => []
      end).

(** [and_] of the filters, on one row. *)
Definition and_ (fs : list (Book.t -> bool)) (r : Book.t) : bool :=
  List.forallb (fun f => f r) fs.

(** The patterns that the LIKE terms in force bind. *)
Definition patterns (search_query : SearchQuery.t) : list str :=
  (match truthy_str (SearchQuery.title search_query) with
   | Some title => [percent :: title ++ [percent]]
   | None => []
   end)
  ++ (match truthy_str (SearchQuery.author search_query) with
      | Some author => [percent :: author ++ [percent]]
      | None => []
      end).

(** The query with its year criteria alone. *)
Definition years_only (search_query : SearchQuery.t) : SearchQuery.t :=
  SearchQuery.mk None None (SearchQuery.year search_query)
    (SearchQuery.year_from search_query) (SearchQuery.year_to search_query)
    (SearchQuery.page search_query) (SearchQuery.page_size search_query).

(** The year criteria in force are one end of a range and nothing else. *)
Definition one_bound (search_query : SearchQuery.t) : bool :=
  match truthy_int (SearchQuery.year search_query),
        truthy_int (SearchQuery.year_from search_query),
        truthy_int (SearchQuery.year_to search_query) with
  | None, Some _, None | None, None, Some _ => true
  | _, _, _ => false
  end.

(** SQLite tests the LIKE terms of a row in the order of the clause, and
    the second only when the first is true: on row [r] it comes to a term
    whose pattern is too long. *)
Definition author_too_complex (search_query : SearchQuery.t) : bool :=
  match truthy_str (SearchQuery.author search_query) with
  | Some author => too_complex (percent :: author ++ [percent])
  | None => false
  end.

Definition tests_too_complex (search_query : SearchQuery.t) (r : Book.t)
  : bool :=
  match truthy_str (SearchQuery.title search_query) with
  | Some title =>
      let pattern := percent :: title ++ [percent] in
      too_complex pattern
      || (ilike (Book.title r) pattern && author_too_complex search_query)
  | None => author_too_complex search_query
  end.

Definition like_terms (tested_too_complex : bool)
  : result ExecuteError unit :=
  if tested_too_complex then Raise LIKE_or_GLOB_pattern_too_complex
  else Ok tt.

(** [search_books] runs two statements.  For the count SQLite searches the
    index on [year], so it tests the LIKE terms on the rows that pass the
    year terms.  For the page it does the same, except that with one end of
    a range as the only year term it walks the table in the order of [id]
    and tests the LIKE terms first, on every row as long as the page is not
    full, which [LIMIT 0] is from the start. *)
Definition search_books (db : Session.t) (search_query : SearchQuery.t)
  : result ExecuteError (list Book.t * Z) :=
  let query := List.filter (and_ (filters search_query))
                           (Session.working db) in
  _ <- sqlite_ints (parameters search_query) ;;
  _ <- like_terms
         (existsb (fun r => and_ (filters (years_only search_query)) r
                            && tests_too_complex search_query r)
                  (Session.working db)) ;;
  let total := Z.of_nat (length query) in
  let skip :=
    (SearchQuery.page search_query - 1)
    * SearchQuery.page_size search_query in
  _ <- sqlite_ints [SearchQuery.page_size search_query; skip] ;;
  _ <- like_terms
         (one_bound search_query
          && negb (SearchQuery.page_size search_query =? 0)
          && existsb (tests_too_complex search_query)
                     (Session.working db)) ;;
  let books :=
    limit (SearchQuery.page_size search_query)
          (offset skip (order_by_id query)) in
  Ok (books, total).

End BookCRUD.

(** ** main.py *)

(** What a handler answers: the body on success, FastAPI's own 422 when the
    request does not validate, or the [HTTPException] of the handler. *)
Inductive response (A : Type) : Type :=
| Success (body : A)
| RequestValidationError (errors : list ErrorDetails)
| HTTP_400_BAD_REQUEST (detail : ValueError)
| HTTP_404_NOT_FOUND
| HTTP_500_INTERNAL_SERVER_ERROR.
Arguments Success {A} body.
Arguments RequestValidationError {A} errors.
Arguments HTTP_400_BAD_REQUEST {A} detail.
Arguments HTTP_404_NOT_FOUND {A}.
Arguments HTTP_500_INTERNAL_SERVER_ERROR {A}.

Module main.

(** [Query(..., ge=bound)], [Path(..., ge=bound)] *)
Definition ge_ (name : string) (bound v : Z) : list ErrorDetails :=
  if v <? bound then [mkError name greater_than_equal] else [].

(** [Query(..., le=bound)] *)
Definition le_ (name : string) (bound v : Z) : list ErrorDetails :=
  if bound <? v then [mkError name less_than_equal] else [].

Definition optional_ge (name : string) (bound : Z) (v : option Z)
  : list ErrorDetails :=
  match v with
  | Some z => ge_ name bound z
  | None => []
  end.

(** [[schemas.BookResponse.model_validate(book) for book in books]] *)
Fixpoint model_validate_each (import_year : Z) (books : list Book.t)
  : result (list ErrorDetails) (list BookResponse.t) :=
  match books with
  | [] => Ok []
  | book :: rest =>
      b <- BookResponse.model_validate import_year book ;;
      bs <- model_validate_each import_year rest ;;
      Ok (b :: bs)
  end.

Definition create_book (import_year current_year : Z)
    (table : list Book.t) (title author : str) (year : option Z)
  : list Book.t * response BookResponse.t :=
  match BookCreate.model_validate import_year title author year with
  | Raise errors => (table, RequestValidationError errors)
  | Ok book =>
      let db := Session.local table in
      let '(db, r) := BookCRUD.create_book current_year db book in
      (Session.close db,
       match r with
       | Ok db_book =>
           match BookResponse.model_validate import_year db_book with
           | Ok body => Success body
           | Raise errors => HTTP_400_BAD_REQUEST (ValidationError errors)
           end
       | Raise e => HTTP_400_BAD_REQUEST e
       end)
  end.

(** The local [total_pages] of [get_books]. *)
Definition get_books_total_pages (total page_size : Z) : Z :=
  (total + page_size - 1) / page_size.

Definition get_books (import_year : Z) (table : list Book.t)
    (page page_size : Z) : response BooksResponse.t :=
  match ge_ "page" 1 page ++ ge_ "page_size" 1 page_size
        ++ le_ "page_size" 100 page_size with
  | _ :: _ as errors => RequestValidationError errors
  | [] =>
      let db := Session.local table in
      let skip := (page - 1) * page_size in
      match BookCRUD.get_books db skip page_size with
      | Raise _ => HTTP_500_INTERNAL_SERVER_ERROR
      | Ok (books, total) =>
          let total_pages := get_books_total_pages total page_size in
          match model_validate_each import_year books with
          | Ok books =>
              Success
                (BooksResponse.mk books total page page_size total_pages)
          | Raise _ => HTTP_500_INTERNAL_SERVER_ERROR
          end
      end
  end.

(** A book that is not found raises [HTTPException(404)] inside the [try]
    block, where [except Exception] turns it into the 500 answer, as it
    does an [OverflowError]. *)
Definition update_book (import_year current_year : Z)
    (table : list Book.t) (book_update : BookUpdate.t) (book_id : Z)
  : list Book.t * response BookResponse.t :=
  match ge_ "book_id" 1 book_id,
        BookUpdate.model_validate import_year book_update with
  | [], Ok book_update =>
      let db := Session.local table in
      let '(db, r) :=
        BookCRUD.update_book current_year db book_id book_update in
      (Session.close db,
       match r with
       | Ok (Some db_book) =>
           match BookResponse.model_validate import_year db_book with
           | Ok body => Success body
           | Raise errors => HTTP_400_BAD_REQUEST (ValidationError errors)
           end
       | Ok None => HTTP_500_INTERNAL_SERVER_ERROR
       | Raise (is_ValueError e) => HTTP_400_BAD_REQUEST e
       | Raise (is_ExecuteError _) => HTTP_500_INTERNAL_SERVER_ERROR
       end)
  | errors, r =>
      (table,
       RequestValidationError
         (errors ++ match r with
                    | Raise body_errors => body_errors
                    | Ok _ => []
                    end))
  end.

(** The local [total_pages] of [search_books]. *)
Definition search_books_total_pages (total page_size : Z) : Z :=
  if 0 <? total then (total + page_size - 1) / page_size else 0.

Definition search_books (import_year : Z) (table : list Book.t)
    (title author : option str) (year year_from year_to : option Z)
    (page page_size : Z) : response BooksResponse.t :=
  match optional_ge "year" 1000 year
        ++ optional_ge "year_from" 1000 year_from
        ++ ge_ "page" 1 page ++ ge_ "page_size" 1 page_size
        ++ le_ "page_size" 100 page_size with
  | _ :: _ as errors => RequestValidationError errors
  | [] =>
      let db := Session.local table in
      let search_query :=
        SearchQuery.mk title author year year_from year_to page page_size in
      match BookCRUD.search_books db search_query with
      | Raise _ => HTTP_500_INTERNAL_SERVER_ERROR
      | Ok (books, total) =>
          let total_pages := search_books_total_pages total page_size in
          match model_validate_each import_year books with
          | Ok books =>
              Success
                (BooksResponse.mk books total page page_size total_pages)
          | Raise _ => HTTP_500_INTERNAL_SERVER_ERROR
          end
      end
  end.

(** [get_book] has no [try] block: the 404 goes out as raised, and an
    exception of the response schema or of the driver is not caught, which
    the server answers with 500. *)
Definition get_book (import_year : Z) (table : list Book.t) (book_id : Z)
  : response BookResponse.t :=
  match ge_ "book_id" 1 book_id with
  | _ :: _ as errors => RequestValidationError errors
  | [] =>
      let db := Session.local table in
      match BookCRUD.get_book db book_id with
      | Raise _ => HTTP_500_INTERNAL_SERVER_ERROR
      | Ok None => HTTP_404_NOT_FOUND
      | Ok (Some db_book) =>
          match BookResponse.model_validate import_year db_book with
          | Ok body => Success body
          | Raise _ => HTTP_500_INTERNAL_SERVER_ERROR
          end
      end
  end.

(** [delete_book] answers 204 with no body; it has no [try] block
    either. *)
Definition delete_book (table : list Book.t) (book_id : Z)
  : list Book.t * response unit :=
  match ge_ "book_id" 1 book_id with
  | _ :: _ as errors => (table, RequestValidationError errors)
  | [] =>
      let db := Session.local table in
      let '(db, r) := BookCRUD.delete_book db book_id in
      (Session.close db,
       match r with
       | Raise _ => HTTP_500_INTERNAL_SERVER_ERROR
       | Ok success =>
           if negb success then HTTP_404_NOT_FOUND else Success tt
       end)
  end.

End main.

(** ** Vocabulary of the statements *)



(** The strings and years that no path of create lets through. *)
Definition text_rejected (v : str) : Prop :=
  strip isspace v = [] \/ (255 < length (strip White_Space v))%nat.

(** A year is supplied and lies outside [[lo, hi]]. *)
Definition outside (lo hi : Z) (year : option Z) : Prop :=
  exists y, year = Some y /\ (y < lo \/ hi < y).

(** What the validators of the row accept. *)
Definition text_valid (v : str) : Prop :=
  strip isspace v <> [] /\ (length (strip isspace v) <= 255)%nat.

Definition text_invalid (v : str) : Prop :=
  strip isspace v = [] \/ (255 < length (strip isspace v))%nat.

(** The patch gives the field a value, not null, and the value has [P]. *)
Definition gives {A : Type} (field : option (option A)) (P : A -> Prop)
  : Prop :=
  exists v, field = Some (Some v) /\ P v.

Definition patch_valid (current_year : Z) (u : BookUpdate.t) : Prop :=
  (forall v, BookUpdate.title u = Some (Some v) -> text_valid v)
  /\ (forall v, BookUpdate.author u = Some (Some v) -> text_valid v)
  /\ (forall y, BookUpdate.year u = Some (Some y) ->
                1000 <= y <= current_year + 2).

Definition patch_invalid (current_year : Z) (u : BookUpdate.t) : Prop :=
  gives (BookUpdate.title u) text_invalid
  \/ gives (BookUpdate.author u) text_invalid
  \/ gives (BookUpdate.year u) (fun y => y < 1000 \/ current_year + 2 < y).

(** The same for a request body, which the schema sees first. *)
Definition body_invalid (import_year current_year : Z) (raw : BookUpdate.t)
  : Prop :=
  gives (BookUpdate.title raw) text_rejected
  \/ gives (BookUpdate.author raw) text_rejected
  \/ gives (BookUpdate.year raw)
           (fun y => y < 1000 \/ import_year + 2 < y \/ current_year + 2 < y).

Definition item_bad (current_year : Z) (it : item) : Prop :=
  match it with
  | title_item (Some v) | author_item (Some v) => text_invalid v
  | year_item (Some y) => y < 1000 \/ current_year + 2 < y
  | _ => False
  end.

(** The exception is one of the messages of the validators of the row. *)
Definition raised_by_validator (e : ValueError) : Prop :=
  match e with
  | ValidationError _ => False
  | _ => True
  end.

Definition is_validation_error {A : Type} (r : response A) : Prop :=
  match r with
  | RequestValidationError (_ :: _) => True
  | HTTP_400_BAD_REQUEST _ => True
  | _ => False
  end.

(** The book that a patch makes of [b]: a value that is given replaces the
    stored one, text stripped; a field that is absent or null stays. *)
Definition patched (b : Book.t) (u : BookUpdate.t) : Book.t :=
  Book.mk (Book.id b)
          (match BookUpdate.title u with
           | Some (Some v) => strip isspace v
           | _ => Book.title b
           end)
          (match BookUpdate.author u with
           | Some (Some v) => strip isspace v
           | _ => Book.author b
           end)
          (match BookUpdate.year u with
           | Some (Some y) => Some y
           | _ => Book.year b
           end).

(** The rows after the row of [b'] has been written. *)
Definition written (b' : Book.t) (table : list Book.t) : list Book.t :=
  List.map (fun r => if Book.id r =? Book.id b' then b' else r) table.

(** The reading in which a patch that gives [year] as null clears it. *)
Definition null_clears_year (current_year : Z) (table : list Book.t)
    (book_id : Z) : Prop :=
  let db := fst (BookCRUD.update_book current_year (Session.local table)
                   book_id (BookUpdate.mk None None (Some None))) in
  exists b', BookCRUD.get_book (Session.local (Session.close db)) book_id
             = Ok (Some b')
             /\ Book.year b' = None.

(** The books of the examples. *)
Definition war_and_peace : Book.t :=
  Book.mk 1 (py "War and Peace") (py "Leo Tolstoy") (Some 1869).

Definition anna_karenina : Book.t :=
  Book.mk 2 (py "Anna Karenina") (py "Leo Tolstoy") (Some 1877).

(** [n] is the ceiling of [total / page_size], for a positive size. *)
Definition is_ceil (total page_size n : Z) : Prop :=
  page_size * (n - 1) < total <= page_size * n.

Definition by_id (r1 r2 : Book.t) : Prop := Book.id r1 <= Book.id r2.










(** The integers of a search are 64-bit integers: the years of the filters
    in force, the page size and the offset of the page. *)
Definition ints_fit (q : SearchQuery.t) : Prop :=
  Forall (fun v => in_int64 v = true)
         (BookCRUD.parameters q
          ++ [SearchQuery.page_size q;
              (SearchQuery.page q - 1) * SearchQuery.page_size q]).

(** The parameters of a search all fit: its integers, and the patterns of
    the LIKE terms in force, none longer than SQLite takes. *)
Definition search_fits (q : SearchQuery.t) : Prop :=
  ints_fit q
  /\ Forall (fun pattern => too_complex pattern = false)
            (BookCRUD.patterns q).

(** Twenty-five valid rows, ids 1 to 25. *)
Definition twenty_five_books : list Book.t :=
  List.map (fun i => Book.mk (Z.of_nat i) (py "T") (py "A") None)
           (seq 1 25).

(** A history of the table: creates and deletes, one request each. *)
Inductive op : Type :=
| Create (book : BookCreate.t)
| Delete (book_id : Z).

(** The table after the history, and the ids that its creates returned, in
    the order of the creates. *)
Fixpoint run (current_year : Z) (table : list Book.t) (ops : list op)
  : list Book.t * list Z :=
  match ops with
  | [] => (table, [])
  | Create book :: rest =>
      let '(db, r) :=
        BookCRUD.create_book current_year (Session.local table) book in
      let '(table', ids) := run current_year (Session.close db) rest in
      (table', match r with
               | Ok db_book => Book.id db_book :: ids
               | Raise _ => ids
               end)
  | Delete book_id :: rest =>
      let '(db, _) := BookCRUD.delete_book (Session.local table) book_id in
      run current_year (Session.close db) rest
  end.

(** The ids of the rows grow along the table, which is in insertion order. *)
Definition increasing (table : list Book.t) : Prop :=
  StronglySorted Z.lt (List.map Book.id table).

(** The reading in which the ids that creates return never repeat and only
    grow. *)
Definition ids_never_reused (current_year : Z) (ops : list op) : Prop :=
  StronglySorted Z.lt (snd (run current_year [] ops)).

Definition some_book : BookCreate.t := BookBase.mk (py "T") (py "A") None.


(** A string with no space of [ws] at either end. *)
Definition starts_clean (ws : N -> bool) (s : str) : Prop :=
  match s with
  | [] => True
  | c :: _ => ws c = false
  end.

Definition trimmed (ws : N -> bool) (s : str) : Prop :=
  starts_clean ws s /\ starts_clean ws (rev s).

(** ** Vocabulary of the further properties *)

(** A row as the validators of [Book] leave it: title and author stripped,
    not empty, at most 255 characters; a year, when there is one, in
    [[1000, current_year + 2]]. *)
Definition text_ok (v : str) : Prop :=
  strip isspace v = v /\ v <> [] /\ (length v <= 255)%nat.

Definition row_ok (current_year : Z) (b : Book.t) : Prop :=
  text_ok (Book.title b) /\ text_ok (Book.author b)
  /\ (forall y, Book.year b = Some y -> 1000 <= y <= current_year + 2).

(** The response body that shows a row as it is. *)
Definition as_response (b : Book.t) : BookResponse.t :=
  BookResponse.mk (Book.id b) (Book.title b) (Book.author b) (Book.year b).

(** The books of page [p] (counted from 1) of the listing. *)
Definition page_of (table : list Book.t) (page_size : Z) (p : nat)
  : result ExecuteError (list Book.t) :=
  r <- BookCRUD.get_books (Session.local table)
         ((Z.of_nat p - 1) * page_size) page_size ;;
  Ok (fst r).

(** * Proofs *)

(** ** Stripping *)

Section StripFacts.
Variable ws : N -> bool.

Lemma lstrip_clean (s : str) : starts_clean ws s -> lstrip ws s = s.
Proof.
  destruct s as [|c s]; simpl; [reflexivity|].
  intros ->. reflexivity.
Qed.

Lemma lstrip_app_spaces (l s : str) :
  forallb ws l = true -> lstrip ws (l ++ s) = lstrip ws s.
Proof.
  induction l as [|c l IH]; simpl; [reflexivity|].
  intros H. apply andb_prop in H as [-> H]. auto.
Qed.

Lemma lstrip_split (s : str) :
  exists l, s = l ++ lstrip ws s /\ forallb ws l = true
            /\ starts_clean ws (lstrip ws s).
Proof.
  induction s as [|c s (l & E & Hl & Hc)]; simpl.
  - exists []. repeat split.
  - destruct (ws c) eqn:Hw.
    + exists (c :: l). simpl. rewrite Hw, Hl. repeat split; auto.
      f_equal. exact E.
    + exists []. simpl. repeat split. exact Hw.
Qed.

Lemma forallb_rev (l : str) : forallb ws (rev l) = forallb ws l.
Proof.
  induction l as [|c l IH]; simpl; [reflexivity|].
  rewrite forallb_app, IH. simpl. rewrite andb_true_r. apply andb_comm.
Qed.

(** What [strip] returns, from any way of writing the string as spaces,
    a trimmed middle, and spaces. *)
Lemma strip_unique (l m r : str) :
  forallb ws l = true -> forallb ws r = true -> trimmed ws m ->
  strip ws (l ++ m ++ r) = m.
Proof.
  intros Hl Hr [Hm Hm']. unfold strip, rstrip.
  rewrite lstrip_app_spaces by exact Hl.
  destruct m as [|c m].
  - simpl. rewrite <- (app_nil_r r), lstrip_app_spaces by exact Hr.
    reflexivity.
  - rewrite (lstrip_clean ((c :: m) ++ r)) by exact Hm.
    rewrite rev_app_distr, lstrip_app_spaces
      by (rewrite forallb_rev; exact Hr).
    rewrite (lstrip_clean (rev (c :: m))) by exact Hm'.
    apply rev_involutive.
Qed.

Lemma strip_split (s : str) :
  exists l r, s = l ++ strip ws s ++ r /\ forallb ws l = true
              /\ forallb ws r = true /\ trimmed ws (strip ws s).
Proof.
  destruct (lstrip_split s) as (l & E & Hl & Hc).
  destruct (lstrip_split (rev (lstrip ws s))) as (r & E' & Hr & Hc').
  exists l, (rev r). unfold strip, rstrip.
  assert (E2 : lstrip ws s = rev (lstrip ws (rev (lstrip ws s))) ++ rev r).
  { rewrite <- rev_app_distr, <- E'. symmetry. apply rev_involutive. }
  repeat split.
  - rewrite <- E2. exact E.
  - exact Hl.
  - rewrite forallb_rev. exact Hr.
  - destruct (rev (lstrip ws (rev (lstrip ws s)))) eqn:Em; [exact I|].
    rewrite E2 in Hc. exact Hc.
  - rewrite rev_involutive. exact Hc'.
Qed.

Lemma strip_length (s : str) : (length (strip ws s) <= length s)%nat.
Proof.
  destruct (strip_split s) as (l & r & E & _).
  rewrite E at 2. rewrite !length_app. lia.
Qed.

Lemma strip_trimmed (s : str) : trimmed ws s -> strip ws s = s.
Proof.
  intros H. rewrite <- (app_nil_r s) at 1.
  apply (strip_unique [] s []); auto.
Qed.

End StripFacts.

Lemma forallb_weaken (ws1 ws2 : N -> bool) (l : str) :
  (forall c, ws1 c = true -> ws2 c = true) ->
  forallb ws1 l = true -> forallb ws2 l = true.
Proof.
  intros Hsub H. rewrite forallb_forall in *. auto.
Qed.

Lemma trimmed_weaken (ws1 ws2 : N -> bool) (s : str) :
  (forall c, ws1 c = true -> ws2 c = true) ->
  trimmed ws2 s -> trimmed ws1 s.
Proof.
  intros Hsub [H1 H2].
  assert (W : forall t, starts_clean ws2 t -> starts_clean ws1 t).
  { intros [|c t]; simpl; [auto|]. intros Hc.
    destruct (ws1 c) eqn:E; [|reflexivity].
    apply Hsub in E. congruence. }
  split; auto.
Qed.

(** Stripping more after stripping less is stripping more. *)
Lemma strip_strip (ws1 ws2 : N -> bool) (s : str) :
  (forall c, ws1 c = true -> ws2 c = true) ->
  strip ws2 (strip ws1 s) = strip ws2 s.
Proof.
  intros Hsub.
  destruct (strip_split ws1 s) as (l1 & r1 & E1 & Hl1 & Hr1 & _).
  destruct (strip_split ws2 (strip ws1 s)) as (l2 & r2 & E2 & Hl2 & Hr2 & T).
  rewrite E1 at 2. rewrite E2 at 2.
  replace (l1 ++ (l2 ++ strip ws2 (strip ws1 s) ++ r2) ++ r1)
    with ((l1 ++ l2) ++ strip ws2 (strip ws1 s) ++ (r2 ++ r1))
    by (rewrite <- !app_assoc; reflexivity).
  symmetry. apply strip_unique; [| |exact T].
  - rewrite forallb_app, Hl2, (forallb_weaken ws1 ws2 l1 Hsub Hl1).
    reflexivity.
  - rewrite forallb_app, Hr2, (forallb_weaken ws1 ws2 r1 Hsub Hr1).
    reflexivity.
Qed.

(** Stripping less after stripping more changes nothing. *)
Lemma strip_stripped (ws1 ws2 : N -> bool) (s : str) :
  (forall c, ws1 c = true -> ws2 c = true) ->
  strip ws1 (strip ws2 s) = strip ws2 s.
Proof.
  intros Hsub. apply strip_trimmed.
  destruct (strip_split ws2 s) as (_ & _ & _ & _ & _ & T).
  exact (trimmed_weaken ws1 ws2 _ Hsub T).
Qed.

Lemma White_Space_isspace (c : N) : White_Space c = true -> isspace c = true.
Proof. unfold isspace. intros ->. reflexivity. Qed.

Lemma strip_isspace_trim (s : str) :
  strip isspace (strip White_Space s) = strip isspace s.
Proof. apply strip_strip, White_Space_isspace. Qed.

Lemma trim_strip_isspace (s : str) :
  strip White_Space (strip isspace s) = strip isspace s.
Proof. apply strip_stripped, White_Space_isspace. Qed.

Lemma strip_isspace_idem (s : str) :
  strip isspace (strip isspace s) = strip isspace s.
Proof. apply strip_stripped. auto. Qed.

Lemma strip_isspace_shorter (s : str) :
  (length (strip isspace s) <= length (strip White_Space s))%nat.
Proof. rewrite <- strip_isspace_trim. apply strip_length. Qed.

(** ** The validators of the row *)

Lemma validate_title_valid (v : str) :
  text_valid v -> Book.validate_title v = Ok (strip isspace v).
Proof.
  intros [Hne Hlen]. unfold Book.validate_title.
  destruct v as [|c v]; [elim Hne; reflexivity|].
  destruct (strip isspace (c :: v)) as [|c' w] eqn:E; [congruence|].
  simpl falsy. simpl orb. cbv iota.
  destruct (Nat.ltb_spec 255 (length (c' :: w))); [lia|reflexivity].
Qed.

Lemma validate_author_valid (v : str) :
  text_valid v -> Book.validate_author v = Ok (strip isspace v).
Proof.
  intros [Hne Hlen]. unfold Book.validate_author.
  destruct v as [|c v]; [elim Hne; reflexivity|].
  destruct (strip isspace (c :: v)) as [|c' w] eqn:E; [congruence|].
  simpl falsy. simpl orb. cbv iota.
  destruct (Nat.ltb_spec 255 (length (c' :: w))); [lia|reflexivity].
Qed.

Lemma validate_year_valid (current_year y : Z) :
  1000 <= y <= current_year + 2 ->
  Book.validate_year current_year (Some y) = Ok (Some y).
Proof.
  intros H. unfold Book.validate_year.
  destruct (Z.ltb_spec y 1000); [lia|].
  destruct (Z.ltb_spec (current_year + 2) y); [lia|reflexivity].
Qed.

Lemma validate_title_invalid (v : str) :
  text_invalid v ->
  exists e, Book.validate_title v = Raise e /\ raised_by_validator e.
Proof.
  intros [H0|Hlong]; unfold Book.validate_title.
  - rewrite H0. simpl falsy. rewrite orb_true_r. eexists. split; [reflexivity|exact I].
  - destruct (falsy v || falsy (strip isspace v)).
    + eexists. split; [reflexivity|exact I].
    + destruct (Nat.ltb_spec 255 (length (strip isspace v))); [|lia].
      eexists. split; [reflexivity|exact I].
Qed.

Lemma validate_author_invalid (v : str) :
  text_invalid v ->
  exists e, Book.validate_author v = Raise e /\ raised_by_validator e.
Proof.
  intros [H0|Hlong]; unfold Book.validate_author.
  - rewrite H0. simpl falsy. rewrite orb_true_r. eexists. split; [reflexivity|exact I].
  - destruct (falsy v || falsy (strip isspace v)).
    + eexists. split; [reflexivity|exact I].
    + destruct (Nat.ltb_spec 255 (length (strip isspace v))); [|lia].
      eexists. split; [reflexivity|exact I].
Qed.

Lemma validate_year_invalid (current_year y : Z) :
  y < 1000 \/ current_year + 2 < y ->
  Book.validate_year current_year (Some y)
  = Raise (Year_must_be_between_1000_and (current_year + 2)).
Proof.
  intros H. unfold Book.validate_year.
  destruct (Z.ltb_spec y 1000); [reflexivity|].
  destruct (Z.ltb_spec (current_year + 2) y); [reflexivity|lia].
Qed.

(** ** Validation of a new book *)

Lemma title_field_cases (v : str) :
  (text_rejected v /\ exists ty, BookBase.title_field v = Raise ty)
  \/ (~ text_rejected v /\ BookBase.title_field v = Ok (strip isspace v)).
Proof.
  unfold BookBase.title_field, constrained_str, text_rejected.
  pose proof (strip_isspace_trim v) as E.
  destruct (strip White_Space v) as [|c w] eqn:Ew.
  - left. simpl in E. split; [left; symmetry; exact E|].
    exists string_too_short. reflexivity.
  - change (length (c :: w) <? 1)%nat with false. cbv iota.
    destruct (Nat.ltb_spec 255 (length (c :: w))) as [Hlong|Hlen].
    + left. split; [right; exact Hlong|].
      exists string_too_long. reflexivity.
    + unfold bind, BookBase.validate_title. rewrite E.
      destruct (strip isspace v) as [|c' w'] eqn:Es.
      * left. split; [left; reflexivity|].
        exists value_error. reflexivity.
      * right. split; [|reflexivity].
        intros [H0|H0]; [discriminate|lia].
Qed.

Lemma author_field_cases (v : str) :
  (text_rejected v /\ exists ty, BookBase.author_field v = Raise ty)
  \/ (~ text_rejected v /\ BookBase.author_field v = Ok (strip isspace v)).
Proof. exact (title_field_cases v). Qed.

(** A string the schema has let through passes the validator of the row. *)
Lemma stored_text_valid (v : str) :
  ~ text_rejected v -> text_valid (strip isspace v).
Proof.
  unfold text_rejected, text_valid. rewrite strip_isspace_idem.
  pose proof (strip_isspace_shorter v) as Hs. intros H.
  split; [tauto|]. destruct (Nat.le_gt_cases (length (strip isspace v)) 255);
    [assumption|]. exfalso. apply H. right. lia.
Qed.

Lemma validate_title_stripped (v : str) :
  ~ text_rejected v ->
  Book.validate_title (strip isspace v) = Ok (strip isspace v).
Proof.
  intros H. rewrite (validate_title_valid _ (stored_text_valid v H)).
  rewrite strip_isspace_idem. reflexivity.
Qed.

Lemma validate_author_stripped (v : str) :
  ~ text_rejected v ->
  Book.validate_author (strip isspace v) = Ok (strip isspace v).
Proof.
  intros H. rewrite (validate_author_valid _ (stored_text_valid v H)).
  rewrite strip_isspace_idem. reflexivity.
Qed.

(** What was stored goes through the response schema unchanged. *)
Lemma stripped_not_rejected (v : str) :
  ~ text_rejected v -> ~ text_rejected (strip isspace v).
Proof.
  unfold text_rejected. rewrite strip_isspace_idem, trim_strip_isspace.
  pose proof (strip_isspace_shorter v) as Hs. intros H [H0|H0]; [tauto|].
  apply H. right. lia.
Qed.

Lemma title_field_stored (v : str) :
  ~ text_rejected v ->
  BookBase.title_field (strip isspace v) = Ok (strip isspace v).
Proof.
  intros H. apply stripped_not_rejected in H.
  destruct (title_field_cases (strip isspace v)) as [[H' _]|[_ E]];
    [contradiction|].
  rewrite E, strip_isspace_idem. reflexivity.
Qed.

Lemma year_field_schema (import_year : Z) (year : option Z) :
  (outside 1000 (import_year + 2) year
   /\ exists ty, BookBase.year_field import_year year = Raise ty)
  \/ (~ outside 1000 (import_year + 2) year
      /\ BookBase.year_field import_year year = Ok year).
Proof.
  unfold BookBase.year_field, optional, constrained_int, outside.
  destruct year as [y|].
  - destruct (Z.ltb_spec (import_year + 2) y).
    + left. split; [exists y; split; [reflexivity|lia]|].
      exists less_than_equal. reflexivity.
    + destruct (Z.ltb_spec y 1000).
      * left. split; [exists y; split; [reflexivity|lia]|].
        exists greater_than_equal. reflexivity.
      * right. split; [|reflexivity].
        intros (y' & [= <-] & Hy). lia.
  - right. split; [|reflexivity]. intros (y & [=] & _).
Qed.

Lemma validate_year_cases (current_year : Z) (year : option Z) :
  (outside 1000 (current_year + 2) year
   /\ Book.validate_year current_year year
      = Raise (Year_must_be_between_1000_and (current_year + 2)))
  \/ (~ outside 1000 (current_year + 2) year
      /\ Book.validate_year current_year year = Ok year).
Proof.
  unfold Book.validate_year, outside. destruct year as [y|].
  - destruct (Z.ltb_spec y 1000); simpl.
    + left. split; [exists y; split; [reflexivity|lia]|reflexivity].
    + destruct (Z.ltb_spec (current_year + 2) y).
      * left. split; [exists y; split; [reflexivity|lia]|reflexivity].
      * right. split; [|reflexivity]. intros (y' & [= <-] & Hy). lia.
  - right. split; [|reflexivity]. intros (y & [=] & _).
Qed.




(** ** Update *)

Lemma setattr_bad (current_year : Z) (b : Book.t) (it : item) :
  item_bad current_year it ->
  exists e, BookCRUD.setattr_if_not_None current_year b it = Raise e
            /\ raised_by_validator e.
Proof.
  destruct it as [[v|]|[v|]|[y|]]; simpl; try contradiction; intros H.
  - destruct (validate_title_invalid v H) as (e & E & He).
    exists e. unfold Book.set_title. rewrite E. split; [reflexivity|exact He].
  - destruct (validate_author_invalid v H) as (e & E & He).
    exists e. unfold Book.set_author. rewrite E. split; [reflexivity|exact He].
  - unfold Book.set_year. rewrite (validate_year_invalid _ _ H).
    eexists. split; [reflexivity|exact I].
Qed.

Lemma setattr_raises_validator (current_year : Z) (b : Book.t) (it : item)
    (e : ValueError) :
  BookCRUD.setattr_if_not_None current_year b it = Raise e ->
  raised_by_validator e.
Proof.
  destruct it as [[v|]|[v|]|[y|]]; simpl; try discriminate.
  - unfold Book.set_title, Book.validate_title.
    repeat match goal with |- context [if ?c then _ else _] => destruct c end;
      simpl; intros [= <-]; exact I.
  - unfold Book.set_author, Book.validate_author.
    repeat match goal with |- context [if ?c then _ else _] => destruct c end;
      simpl; intros [= <-]; exact I.
  - unfold Book.set_year, Book.validate_year.
    repeat match goal with |- context [if ?c then _ else _] => destruct c end;
      simpl; intros [= <-]; exact I.
Qed.

(** The loop stops at the first value a validator refuses. *)
Lemma setattr_loop_raises (current_year : Z) (update_data : list item) :
  Exists (item_bad current_year) update_data ->
  forall b, exists b' e,
    BookCRUD.setattr_loop current_year b update_data = (b', Some e)
    /\ raised_by_validator e.
Proof.
  induction 1 as [it rest Hbad|it rest Hex IH]; intros b; simpl.
  - destruct (setattr_bad current_year b it Hbad) as (e & -> & He).
    exists b, e. split; [reflexivity|exact He].
  - destruct (BookCRUD.setattr_if_not_None current_year b it) as [b1|e] eqn:E.
    + apply IH.
    + exists b, e. split; [reflexivity|].
      exact (setattr_raises_validator _ _ _ _ E).
Qed.

Lemma patch_invalid_item (current_year : Z) (u : BookUpdate.t) :
  patch_invalid current_year u ->
  Exists (item_bad current_year) (BookUpdate.dict_exclude_unset u).
Proof.
  unfold patch_invalid, gives, BookUpdate.dict_exclude_unset.
  intros [(v & E & H)|[(v & E & H)|(y & E & H)]]; rewrite E;
    apply Exists_exists.
  - exists (title_item (Some v)). split; [simpl; auto|exact H].
  - exists (author_item (Some v)).
    split; [apply in_or_app; right; simpl; auto|exact H].
  - exists (year_item (Some y)).
    split; [do 2 (apply in_or_app; right); simpl; auto|exact H].
Qed.

Lemma find_id (k : Z) (rows : list Book.t) (b : Book.t) :
  find (fun r => Book.id r =? k) rows = Some b -> Book.id b = k.
Proof.
  intros H. apply find_some in H as [_ H]. apply Z.eqb_eq. exact H.
Qed.

Lemma find_written (k : Z) (rows : list Book.t) (b b' : Book.t) :
  find (fun r => Book.id r =? k) rows = Some b ->
  Book.id b' = Book.id b ->
  find (fun r => Book.id r =? k) (written b' rows) = Some b'.
Proof.
  intros Hfind Hid. pose proof (find_id _ _ _ Hfind) as Hk.
  induction rows as [|r rows IH]; simpl in *; [discriminate|].
  destruct (Z.eqb_spec (Book.id r) k) as [Er|Er].
  - replace (Book.id r =? Book.id b') with true
      by (symmetry; apply Z.eqb_eq; congruence).
    replace (Book.id b' =? k) with true
      by (symmetry; apply Z.eqb_eq; congruence).
    reflexivity.
  - replace (Book.id r =? Book.id b') with false
      by (symmetry; apply Z.eqb_neq; congruence).
    replace (Book.id r =? k) with false
      by (symmetry; apply Z.eqb_neq; congruence).
    apply IH. exact Hfind.
Qed.

Lemma find_written_other (k : Z) (rows : list Book.t) (b' : Book.t) :
  k <> Book.id b' ->
  find (fun r => Book.id r =? k) (written b' rows)
  = find (fun r => Book.id r =? k) rows.
Proof.
  intros Hk. induction rows as [|r rows IH]; simpl; [reflexivity|].
  destruct (Z.eqb_spec (Book.id r) (Book.id b')) as [Er|Er].
  - replace (Book.id b' =? k) with false
      by (symmetry; apply Z.eqb_neq; congruence).
    replace (Book.id r =? k) with false
      by (symmetry; apply Z.eqb_neq; congruence).
    exact IH.
  - rewrite IH. reflexivity.
Qed.

Lemma get_book_found (db : Session.t) (k : Z) (b : Book.t) :
  BookCRUD.get_book db k = Ok (Some b) ->
  find (fun r => Book.id r =? k) (Session.working db) = Some b
  /\ in_int64 k = true.
Proof.
  unfold BookCRUD.get_book, sqlite_int.
  destruct (in_int64 k); simpl; [|discriminate].
  intros [= H]. split; [exact H|reflexivity].
Qed.

Lemma get_book_fits (db : Session.t) (k : Z) :
  in_int64 k = true ->
  BookCRUD.get_book db k
  = Ok (find (fun r => Book.id r =? k) (Session.working db)).
Proof.
  intros Hk. unfold BookCRUD.get_book, sqlite_int. rewrite Hk. reflexivity.
Qed.

Lemma get_book_too_large (db : Session.t) (k : Z) :
  in_int64 k = false ->
  BookCRUD.get_book db k
  = Raise Python_int_too_large_to_convert_to_SQLite_INTEGER.
Proof.
  intros Hk. unfold BookCRUD.get_book, sqlite_int. rewrite Hk. reflexivity.
Qed.

Lemma get_book_written (table : list Book.t) (k : Z) (b b' : Book.t) :
  BookCRUD.get_book (Session.local table) k = Ok (Some b) ->
  Book.id b' = Book.id b ->
  BookCRUD.get_book (Session.local (written b' table)) k = Ok (Some b').
Proof.
  intros Hget Hid. apply get_book_found in Hget as [Hfind Hk].
  rewrite (get_book_fits _ _ Hk). simpl. f_equal.
  exact (find_written k table b b' Hfind Hid).
Qed.

Lemma get_book_written_other (table : list Book.t) (k : Z) (b' : Book.t) :
  k <> Book.id b' ->
  BookCRUD.get_book (Session.local (written b' table)) k
  = BookCRUD.get_book (Session.local table) k.
Proof.
  intros Hk. unfold BookCRUD.get_book. simpl.
  rewrite (find_written_other k table b' Hk). reflexivity.
Qed.

(** A patch that passes: the stored row becomes [patched b u]. *)
Lemma update_book_valid (current_year : Z) (table : list Book.t)
    (book_id : Z) (u : BookUpdate.t) (b : Book.t) :
  BookCRUD.get_book (Session.local table) book_id = Ok (Some b) ->
  patch_valid current_year u ->
  BookCRUD.update_book current_year (Session.local table) book_id u
  = (Session.local (written (patched b u) table), Ok (Some (patched b u))).
Proof.
  intros Hget (Ht & Ha & Hy). unfold BookCRUD.update_book. rewrite Hget.
  unfold BookUpdate.dict_exclude_unset, patched.
  destruct b as [i t0 a0 y0].
  destruct u as [[[t|]|] [[a|]|] [[y|]|]];
    cbn -[strip Book.validate_title Book.validate_author Book.validate_year]
      in *;
    repeat first
      [ rewrite validate_title_valid by auto
      | rewrite validate_author_valid by auto
      | rewrite validate_year_valid by auto
      | progress unfold Book.set_title, Book.set_author, Book.set_year, bind
      | progress cbn -[strip Book.validate_title Book.validate_author
                       Book.validate_year] ];
    reflexivity.
Qed.

(** A patch that does not pass: an exception, and nothing committed. *)
Lemma update_book_invalid (current_year : Z) (table : list Book.t)
    (book_id : Z) (u : BookUpdate.t) (b : Book.t) :
  BookCRUD.get_book (Session.local table) book_id = Ok (Some b) ->
  patch_invalid current_year u ->
  exists db e,
    BookCRUD.update_book current_year (Session.local table) book_id u
    = (db, Raise (is_ValueError e))
    /\ raised_by_validator e
    /\ Session.close db = table.
Proof.
  intros Hget Hbad. unfold BookCRUD.update_book. rewrite Hget.
  destruct (setattr_loop_raises current_year _ (patch_invalid_item _ _ Hbad) b)
    as (b' & e & -> & He).
  eexists _, e. split; [reflexivity|]. split; [exact He|reflexivity].
Qed.

Lemma text_valid_or_invalid (v : str) : text_valid v \/ text_invalid v.
Proof.
  unfold text_valid, text_invalid.
  destruct (strip isspace v) as [|c w].
  - right. left. reflexivity.
  - destruct (Nat.ltb_spec 255 (length (c :: w))).
    + right. right. assumption.
    + left. split; [discriminate|lia].
Qed.

Lemma optional_text_ok (v r : option (option str)) :
  optional BookUpdate.title_field v = Ok r ->
  r = match v with
      | Some (Some t) => Some (Some (strip White_Space t))
      | _ => v
      end
  /\ forall t, v = Some (Some t) ->
               (length (strip White_Space t) <= 255)%nat.
Proof.
  destruct v as [[t|]|]; simpl.
  - unfold BookUpdate.title_field, optional, constrained_str.
    destruct (length (strip White_Space t) <? 1)%nat; [discriminate|].
    destruct (Nat.ltb_spec 255 (length (strip White_Space t)));
      [discriminate|].
    simpl. intros [= <-]. split; [reflexivity|].
    intros t' [= <-]. assumption.
  - intros [= <-]. split; [reflexivity|discriminate].
  - intros [= <-]. split; [reflexivity|discriminate].
Qed.

Lemma optional_year_ok (import_year : Z) (v r : option (option Z)) :
  optional (BookUpdate.year_field import_year) v = Ok r ->
  r = v /\ forall y, v = Some (Some y) -> 1000 <= y <= import_year + 2.
Proof.
  destruct v as [[y|]|]; simpl.
  - unfold BookUpdate.year_field, optional, constrained_int.
    destruct (Z.ltb_spec (import_year + 2) y); [discriminate|].
    destruct (Z.ltb_spec y 1000); [discriminate|].
    simpl. intros [= <-]. split; [reflexivity|].
    intros y' [= <-]. lia.
  - intros [= <-]. split; [reflexivity|discriminate].
  - intros [= <-]. split; [reflexivity|discriminate].
Qed.

Lemma model_validate_update_cases (import_year : Z) (raw : BookUpdate.t) :
  (exists e errors,
     BookUpdate.model_validate import_year raw = Raise (e :: errors))
  \/ (exists t a y,
        BookUpdate.model_validate import_year raw = Ok (BookUpdate.mk t a y)
        /\ optional BookUpdate.title_field (BookUpdate.title raw) = Ok t
        /\ optional BookUpdate.author_field (BookUpdate.author raw) = Ok a
        /\ optional (BookUpdate.year_field import_year) (BookUpdate.year raw)
           = Ok y).
Proof.
  unfold BookUpdate.model_validate.
  destruct (optional BookUpdate.title_field (BookUpdate.title raw)) as [t|e1];
    destruct (optional BookUpdate.author_field (BookUpdate.author raw))
      as [a|e2];
    destruct (optional (BookUpdate.year_field import_year)
                       (BookUpdate.year raw)) as [y|e3];
    simpl; try (left; eexists _, _; reflexivity).
  right. exists t, a, y. repeat split.
Qed.

(** A body that the schema lets through and that is still not valid is not
    valid for the validators of the row. *)
Lemma body_invalid_after_schema (import_year current_year : Z)
    (raw u : BookUpdate.t) :
  BookUpdate.model_validate import_year raw = Ok u ->
  body_invalid import_year current_year raw ->
  patch_invalid current_year u.
Proof.
  intros Hok Hbad.
  destruct (model_validate_update_cases import_year raw)
    as [(e & errors & E)|(t & a & y & E & Et & Ea & Ey)];
    [congruence|].
  rewrite E in Hok. injection Hok as <-.
  apply optional_text_ok in Et as [-> Ht].
  apply optional_text_ok in Ea as [-> Ha].
  apply optional_year_ok in Ey as [-> Hy].
  unfold patch_invalid, gives; simpl.
  destruct Hbad as [(v & Ev & Hv)|[(v & Ev & Hv)|(v & Ev & Hv)]].
  - left. exists (strip White_Space v). rewrite Ev. split; [reflexivity|].
    destruct Hv as [H0|Hlong].
    + left. rewrite strip_isspace_trim. exact H0.
    + specialize (Ht v Ev). lia.
  - right. left. exists (strip White_Space v). rewrite Ev.
    split; [reflexivity|].
    destruct Hv as [H0|Hlong].
    + left. rewrite strip_isspace_trim. exact H0.
    + specialize (Ha v Ev). lia.
  - right. right. exists v. split; [exact Ev|].
    specialize (Hy v Ev). lia.
Qed.

Lemma update_book_rejects_body (import_year current_year : Z)
    (table : list Book.t) (book_id : Z) (raw : BookUpdate.t) (b : Book.t) :
  BookCRUD.get_book (Session.local table) book_id = Ok (Some b) ->
  body_invalid import_year current_year raw ->
  exists resp,
    main.update_book import_year current_year table raw book_id
    = (table, resp)
    /\ is_validation_error resp.
Proof.
  intros Hget Hbad. unfold main.update_book, main.ge_.
  destruct (book_id <? 1).
  - eexists. split; [reflexivity|exact I].
  - destruct (model_validate_update_cases import_year raw)
      as [(e & errors & E)|(t & a & y & E & _)]; rewrite E.
    + eexists. split; [reflexivity|exact I].
    + pose proof (body_invalid_after_schema _ _ _ _ E Hbad) as Hu.
      destruct (update_book_invalid current_year table book_id _ b Hget Hu)
        as (db & e & -> & _ & Hclose).
      rewrite Hclose. eexists. split; [reflexivity|exact I].
Qed.

(** C1, as amended.  For every existing book and every patch that passes
    the validators of the row, update stores exactly [patched b u]: a field
    that the patch gives with a value is stripped and replaces the stored
    one; a field that is absent from the patch, or given as null, keeps the
    stored value.  In particular a patch that gives [year] as null leaves the
    stored year as it was. *)
Theorem update_book_applies_given_values
    (current_year : Z) (table : list Book.t) (book_id : Z)
    (u : BookUpdate.t) (b : Book.t) :
  BookCRUD.get_book (Session.local table) book_id = Ok (Some b) ->
  patch_valid current_year u ->
  let r := BookCRUD.update_book current_year (Session.local table)
                                book_id u in
  snd r = Ok (Some (patched b u))
  /\ BookCRUD.get_book (Session.local (Session.close (fst r))) book_id
     = Ok (Some (patched b u))
  /\ (BookUpdate.year u = None \/ BookUpdate.year u = Some None ->
      Book.year (patched b u) = Book.year b)
  /\ (forall y, BookUpdate.year u = Some (Some y) ->
                Book.year (patched b u) = Some y).
Proof.
  intros Hget Hvalid r. subst r.
  rewrite (update_book_valid current_year table book_id u b Hget Hvalid).
  cbn [fst snd Session.close Session.local Session.committed].
  split; [reflexivity|]. split; [|split].
  - apply (get_book_written table book_id b); [exact Hget|reflexivity].
  - intros [E|E]; unfold patched; rewrite E; reflexivity.
  - intros y E. unfold patched. rewrite E. reflexivity.
Qed.

Lemma update_book_applies_given_values_witness :
  BookCRUD.get_book (Session.local [war_and_peace]) 1
  = Ok (Some war_and_peace)
  /\ snd (BookCRUD.update_book 2026 (Session.local [war_and_peace]) 1
            (BookUpdate.mk None (Some (Some (py " L. N. Tolstoy ")))
                           (Some None)))
     = Ok (Some (Book.mk 1 (py "War and Peace") (py "L. N. Tolstoy")
                         (Some 1869))).
Proof.
  split; [reflexivity|].
  apply (update_book_applies_given_values 2026 [war_and_peace] 1
           (BookUpdate.mk None (Some (Some (py " L. N. Tolstoy ")))
                          (Some None))
           war_and_peace).
  - reflexivity.
  - unfold patch_valid; simpl. split; [|split].
    + intros v H. discriminate H.
    + intros v H. injection H as <-. split; vm_compute; [discriminate|lia].
    + intros y H. discriminate H.
Defined.

(** C1, as stated, fails: giving [year] as null does not clear the year. *)
Lemma null_year_is_not_cleared : ~ null_clears_year 2026 [war_and_peace] 1.
Proof.
  unfold null_clears_year. simpl. intros (b' & E & H).
  injection E as <-. discriminate H.
Qed.

(** C3.  For every existing book id and every patch whose content fails
    validation, update fails with a validation error and the committed row
    keeps all of its values: the repository raises the [ValueError] of a
    validator and commits nothing, although the object of the session may
    already carry the fields set before the failing one; and the handler
    answers a request body that is not valid with a validation error and
    leaves the table as it was. *)
Theorem update_book_invalid_writes_nothing
    (import_year current_year : Z) (table : list Book.t) (book_id : Z)
    (b : Book.t) :
  BookCRUD.get_book (Session.local table) book_id = Ok (Some b) ->
  (forall u, patch_invalid current_year u ->
     exists db e,
       BookCRUD.update_book current_year (Session.local table) book_id u
       = (db, Raise (is_ValueError e))
       /\ raised_by_validator e
       /\ Session.close db = table
       /\ BookCRUD.get_book (Session.local (Session.close db)) book_id
          = Ok (Some b))
  /\ (forall raw, body_invalid import_year current_year raw ->
        exists resp,
          main.update_book import_year current_year table raw book_id
          = (table, resp)
          /\ is_validation_error resp).
Proof.
  intros Hget. split.
  - intros u Hbad.
    destruct (update_book_invalid current_year table book_id u b Hget Hbad)
      as (db & e & E & He & Hclose).
    exists db, e. rewrite Hclose. auto.
  - intros raw Hbad.
    exact (update_book_rejects_body _ _ _ _ _ b Hget Hbad).
Qed.

Lemma update_book_invalid_writes_nothing_witness :
  BookCRUD.get_book (Session.local [war_and_peace]) 1
  = Ok (Some war_and_peace)
  /\ (exists db e,
        BookCRUD.update_book 2026 (Session.local [war_and_peace]) 1
          (BookUpdate.mk (Some (Some (py "New"))) None (Some (Some 999)))
        = (db, Raise (is_ValueError e))
        /\ raised_by_validator e
        /\ Session.close db = [war_and_peace]
        /\ BookCRUD.get_book (Session.local (Session.close db)) 1
           = Ok (Some war_and_peace))
  /\ (exists resp,
        main.update_book 2026 2026 [war_and_peace]
          (BookUpdate.mk (Some (Some (py "New"))) None (Some (Some 999))) 1
        = ([war_and_peace], resp)
        /\ is_validation_error resp).
Proof.
  split; [reflexivity|].
  destruct (update_book_invalid_writes_nothing 2026 2026 [war_and_peace] 1
              war_and_peace eq_refl) as [Hcrud Hmain].
  split.
  - apply Hcrud. right. right. exists 999. split; [reflexivity|lia].
  - apply Hmain. right. right. exists 999. split; [reflexivity|lia].
Defined.

(** C7.  For every existing book, an update whose patch gives only the
    author leaves the stored title and year (and id) as they were, whatever
    the outcome; when the author given passes validation the stored author
    is that value, stripped; and no other row changes. *)
Theorem update_author_only_keeps_title_and_year
    (current_year : Z) (table : list Book.t) (book_id : Z)
    (value : option str) (b : Book.t) :
  BookCRUD.get_book (Session.local table) book_id = Ok (Some b) ->
  let r := BookCRUD.update_book current_year (Session.local table) book_id
             (BookUpdate.mk None (Some value) None) in
  let table' := Session.close (fst r) in
  exists b',
    BookCRUD.get_book (Session.local table') book_id = Ok (Some b')
    /\ Book.title b' = Book.title b
    /\ Book.year b' = Book.year b
    /\ Book.id b' = Book.id b
    /\ (forall v, value = Some v -> text_valid v ->
                  Book.author b' = strip isspace v /\ snd r = Ok (Some b'))
    /\ (forall k, k <> book_id ->
                  BookCRUD.get_book (Session.local table') k
                  = BookCRUD.get_book (Session.local table) k).
Proof.
  intros Hget r table'. subst table' r.
  set (u := BookUpdate.mk None (Some value) None).
  assert (Hcase : patch_valid current_year u \/ patch_invalid current_year u).
  { destruct value as [v|].
    - destruct (text_valid_or_invalid v) as [Hv|Hv].
      + left. split; [|split]; simpl.
        * intros v' H. discriminate H.
        * intros v' [= <-]. exact Hv.
        * intros y H. discriminate H.
      + right. right. left. exists v. split; [reflexivity|exact Hv].
    - left. split; [|split]; simpl; intros v' H; discriminate H. }
  destruct Hcase as [Hvalid|Hbad].
  - rewrite (update_book_valid current_year table book_id u b Hget Hvalid).
    exists (patched b u).
    cbn [fst snd Session.close Session.local Session.committed].
    split; [apply (get_book_written table book_id b);
            [exact Hget|reflexivity]|].
    do 3 (split; [reflexivity|]). split.
    + intros v -> _. split; reflexivity.
    + intros k Hk. apply get_book_written_other. simpl.
      apply get_book_found in Hget as [Hfind _].
      rewrite (find_id _ _ _ Hfind). exact Hk.
  - destruct (update_book_invalid current_year table book_id u b Hget Hbad)
      as (db & e & -> & _ & Hclose).
    exists b. simpl. rewrite Hclose.
    split; [exact Hget|]. do 3 (split; [reflexivity|]). split.
    + intros v -> [Hne Hlen].
      destruct Hbad as [(v' & E & _)|[(v' & E & Hv')|(y & E & _)]];
        try discriminate E.
      injection E as <-.
      destruct Hv' as [H0|Hlong]; [contradiction|lia].
    + reflexivity.
Qed.

Lemma update_author_only_keeps_title_and_year_witness :
  BookCRUD.get_book (Session.local [war_and_peace; anna_karenina]) 2
  = Ok (Some anna_karenina)
  /\ exists b',
       BookCRUD.get_book
         (Session.local
            (Session.close
               (fst (BookCRUD.update_book 2026
                       (Session.local [war_and_peace; anna_karenina]) 2
                       (BookUpdate.mk None (Some (Some (py "X"))) None)))))
         2 = Ok (Some b')
       /\ Book.title b' = py "Anna Karenina"
       /\ Book.year b' = Some 1877.
Proof.
  split; [reflexivity|].
  destruct (update_author_only_keeps_title_and_year 2026
              [war_and_peace; anna_karenina] 2 (Some (py "X")) anna_karenina
              eq_refl) as (b' & Hget & Ht & Hy & _).
  exists b'. split; [exact Hget|]. split; [exact Ht|exact Hy].
Defined.

(** ** Listing *)

Lemma insert_by_id_perm (b : Book.t) (rows : list Book.t) :
  Permutation (insert_by_id b rows) (b :: rows).
Proof.
  induction rows as [|r rows IH]; simpl; [reflexivity|].
  destruct (Book.id b <=? Book.id r); [reflexivity|].
  rewrite IH. apply perm_swap.
Qed.

Lemma order_by_id_perm (rows : list Book.t) :
  Permutation (order_by_id rows) rows.
Proof.
  induction rows as [|r rows IH]; simpl; [reflexivity|].
  rewrite insert_by_id_perm. apply perm_skip. exact IH.
Qed.

Lemma insert_by_id_sorted (b : Book.t) (rows : list Book.t) :
  Sorted by_id rows -> Sorted by_id (insert_by_id b rows).
Proof.
  induction 1 as [|r rows Hs IH Hhd]; simpl.
  - repeat constructor.
  - destruct (Z.leb_spec (Book.id b) (Book.id r)) as [Hle|Hgt].
    + constructor; [constructor; assumption|].
      constructor. exact Hle.
    + constructor; [exact IH|].
      destruct Hhd as [|r' rows' Hr]; simpl.
      * constructor. unfold by_id. lia.
      * destruct (Book.id b <=? Book.id r'); constructor;
          unfold by_id in *; lia.
Qed.

Lemma order_by_id_sorted (rows : list Book.t) :
  StronglySorted by_id (order_by_id rows).
Proof.
  apply Sorted_StronglySorted.
  - intros x y z. unfold by_id. lia.
  - induction rows as [|r rows IH]; simpl; [constructor|].
    apply insert_by_id_sorted. exact IH.
Qed.

Lemma limit_incl (n : Z) (rows : list Book.t) (b : Book.t) :
  In b (limit n rows) -> In b rows.
Proof.
  unfold limit. destruct (n <? 0); [auto|].
  revert rows. induction (Z.to_nat n) as [|m IH]; intros rows; simpl;
    [contradiction|].
  destruct rows as [|r rows]; simpl; [contradiction|].
  intros [H|H]; [left; exact H|right; exact (IH _ H)].
Qed.

Lemma offset_incl (n : Z) (rows : list Book.t) (b : Book.t) :
  In b (offset n rows) -> In b rows.
Proof.
  unfold offset. revert rows.
  induction (Z.to_nat n) as [|m IH]; intros rows; simpl; [auto|].
  destruct rows as [|r rows]; simpl; [contradiction|].
  intros H. right. exact (IH _ H).
Qed.

Lemma limit_sorted (n : Z) (rows : list Book.t) :
  StronglySorted by_id rows -> StronglySorted by_id (limit n rows).
Proof.
  unfold limit. destruct (n <? 0); [auto|].
  intros Hs. revert n. induction Hs as [|r rows Hs IH Hr]; intros n.
  - rewrite firstn_nil. constructor.
  - destruct (Z.to_nat n) as [|m] eqn:En; simpl; [constructor|].
    constructor.
    + specialize (IH (Z.of_nat m)). rewrite Nat2Z.id in IH. exact IH.
    + rewrite Forall_forall in *. intros x Hx. apply Hr.
      exact (limit_incl (Z.of_nat m) rows x
               ltac:(unfold limit;
                     destruct (Z.ltb_spec (Z.of_nat m) 0); [lia|];
                     rewrite Nat2Z.id; exact Hx)).
Qed.

Lemma offset_sorted (n : Z) (rows : list Book.t) :
  StronglySorted by_id rows -> StronglySorted by_id (offset n rows).
Proof.
  unfold offset. intros Hs. revert rows Hs.
  induction (Z.to_nat n) as [|m IH]; intros rows Hs; simpl; [exact Hs|].
  destruct rows as [|r rows]; [constructor|].
  apply IH. apply StronglySorted_inv in Hs. tauto.
Qed.

Lemma limit_length (n : Z) (rows : list Book.t) :
  0 <= n -> Z.of_nat (length (limit n rows)) <= n.
Proof.
  intros Hn. unfold limit. destruct (Z.ltb_spec n 0); [lia|].
  pose proof (firstn_le_length (Z.to_nat n) rows). lia.
Qed.

Lemma sqlite_int_fits (v : Z) : in_int64 v = true -> sqlite_int v = Ok v.
Proof. intros H. unfold sqlite_int. rewrite H. reflexivity. Qed.

Lemma in_int64_range (v : Z) : in_int64 v = true <-> - 2 ^ 63 <= v < 2 ^ 63.
Proof.
  unfold in_int64. rewrite andb_true_iff, Z.leb_le, Z.ltb_lt. reflexivity.
Qed.

Lemma sqlite_ints_fit (vs : list Z) :
  sqlite_ints vs = Ok tt <-> Forall (fun v => in_int64 v = true) vs.
Proof.
  induction vs as [|v vs IH]; simpl.
  - split; [constructor|reflexivity].
  - unfold sqlite_int. destruct (in_int64 v) eqn:Hv; simpl.
    + rewrite IH. split; [intros H; constructor; assumption|].
      intros H. apply Forall_inv_tail in H. exact H.
    + split; [discriminate|]. intros H. apply Forall_inv in H. congruence.
Qed.

Lemma sqlite_ints_cases (vs : list Z) :
  sqlite_ints vs = Ok tt
  \/ sqlite_ints vs = Raise Python_int_too_large_to_convert_to_SQLite_INTEGER.
Proof.
  induction vs as [|v vs IH]; simpl; [left; reflexivity|].
  unfold sqlite_int. destruct (in_int64 v); simpl; [exact IH|].
  right. reflexivity.
Qed.

(** The listing answers exactly when its two parameters fit. *)
Lemma get_books_fits (db : Session.t) (skip limit_ : Z) :
  in_int64 skip = true -> in_int64 limit_ = true ->
  BookCRUD.get_books db skip limit_
  = Ok (limit limit_ (offset skip (order_by_id (Session.working db))),
        Z.of_nat (length (Session.working db))).
Proof.
  intros Hs Hl. unfold BookCRUD.get_books. simpl.
  rewrite (sqlite_int_fits _ Hl), (sqlite_int_fits _ Hs). reflexivity.
Qed.

Lemma get_books_inv (db : Session.t) (skip limit_ : Z)
    (books : list Book.t) (total : Z) :
  BookCRUD.get_books db skip limit_ = Ok (books, total) ->
  in_int64 skip = true /\ in_int64 limit_ = true
  /\ books = limit limit_ (offset skip (order_by_id (Session.working db)))
  /\ total = Z.of_nat (length (Session.working db)).
Proof.
  unfold BookCRUD.get_books. simpl. unfold sqlite_int.
  destruct (in_int64 limit_); simpl; [|discriminate].
  destruct (in_int64 skip); simpl; [|discriminate].
  intros [= <- <-]. repeat split.
Qed.

Lemma get_books_too_large (db : Session.t) (skip limit_ : Z) :
  in_int64 skip = false \/ in_int64 limit_ = false ->
  BookCRUD.get_books db skip limit_
  = Raise Python_int_too_large_to_convert_to_SQLite_INTEGER.
Proof.
  unfold BookCRUD.get_books. simpl. unfold sqlite_int.
  intros [H|H]; rewrite H.
  - destruct (in_int64 limit_); reflexivity.
  - reflexivity.
Qed.




(** ** Pagination *)

Lemma sqlite_ints_app (vs ws : list Z) :
  sqlite_ints (vs ++ ws) = (_ <- sqlite_ints vs ;; sqlite_ints ws).
Proof.
  induction vs as [|v vs IH]; simpl; [reflexivity|].
  destruct (sqlite_int v); simpl; [exact IH|reflexivity].
Qed.

Lemma existsb_none (A : Type) (f : A -> bool) (l : list A) :
  (forall x, f x = false) -> existsb f l = false.
Proof.
  intros H. induction l as [|x l IH]; simpl; [reflexivity|].
  rewrite (H x), IH. reflexivity.
Qed.

Lemma patterns_fit_tests (q : SearchQuery.t) (r : Book.t) :
  Forall (fun pattern => too_complex pattern = false) (BookCRUD.patterns q) ->
  BookCRUD.tests_too_complex q r = false.
Proof.
  unfold BookCRUD.patterns, BookCRUD.tests_too_complex,
    BookCRUD.author_too_complex.
  intros H. apply Forall_app in H as [Ht Ha].
  assert (Eauthor : match truthy_str (SearchQuery.author q) with
                    | Some author =>
                        too_complex (percent :: author ++ [percent])
                    | None => false
                    end = false).
  { destruct (truthy_str (SearchQuery.author q)); [|reflexivity].
    apply Forall_inv in Ha. exact Ha. }
  rewrite Eauthor.
  destruct (truthy_str (SearchQuery.title q)); [|reflexivity].
  apply Forall_inv in Ht. cbv zeta. rewrite Ht, andb_false_r. reflexivity.
Qed.

Lemma like_terms_cases (tested_too_complex : bool) :
  BookCRUD.like_terms tested_too_complex = Ok tt
  \/ BookCRUD.like_terms tested_too_complex
     = Raise LIKE_or_GLOB_pattern_too_complex.
Proof. destruct tested_too_complex; [right|left]; reflexivity. Qed.

(** The search answers when its parameters fit. *)
Lemma search_books_fits (db : Session.t) (q : SearchQuery.t) :
  search_fits q ->
  BookCRUD.search_books db q
  = Ok (limit (SearchQuery.page_size q)
          (offset ((SearchQuery.page q - 1) * SearchQuery.page_size q)
             (order_by_id
                (filter (BookCRUD.and_ (BookCRUD.filters q))
                        (Session.working db)))),
        Z.of_nat (length (filter (BookCRUD.and_ (BookCRUD.filters q))
                                 (Session.working db)))).
Proof.
  unfold search_fits, ints_fit. intros [H Hpat].
  apply Forall_app in H as [Hp Hw].
  apply sqlite_ints_fit in Hp. apply sqlite_ints_fit in Hw.
  unfold BookCRUD.search_books. rewrite Hp. cbn [bind].
  rewrite (existsb_none _ (fun r => _ && BookCRUD.tests_too_complex q r))
    by (intros r; rewrite (patterns_fit_tests q r Hpat);
        apply andb_false_r).
  cbn [BookCRUD.like_terms bind]. rewrite Hw. cbn [bind].
  rewrite (existsb_none _ (BookCRUD.tests_too_complex q))
    by (intros r; exact (patterns_fit_tests q r Hpat)).
  rewrite andb_false_r. reflexivity.
Qed.

(** What the search returns, when it returns. *)
Lemma search_books_inv (db : Session.t) (q : SearchQuery.t)
    (books : list Book.t) (total : Z) :
  BookCRUD.search_books db q = Ok (books, total) ->
  ints_fit q
  /\ books
     = limit (SearchQuery.page_size q)
         (offset ((SearchQuery.page q - 1) * SearchQuery.page_size q)
            (order_by_id
               (filter (BookCRUD.and_ (BookCRUD.filters q))
                       (Session.working db))))
  /\ total
     = Z.of_nat (length (filter (BookCRUD.and_ (BookCRUD.filters q))
                                (Session.working db))).
Proof.
  unfold BookCRUD.search_books, ints_fit.
  destruct (sqlite_ints_cases (BookCRUD.parameters q)) as [Hp|Hp];
    rewrite Hp; cbn [bind]; [|discriminate].
  match goal with
  | |- context [BookCRUD.like_terms ?b] =>
      destruct (like_terms_cases b) as [Hc|Hc]; rewrite Hc; cbn [bind];
        [|discriminate]
  end.
  match goal with
  | |- context [sqlite_ints ?ws] =>
      destruct (sqlite_ints_cases ws) as [Hw|Hw]; rewrite Hw; cbn [bind];
        [|discriminate]
  end.
  match goal with
  | |- context [BookCRUD.like_terms ?b] =>
      destruct (like_terms_cases b) as [Hs|Hs]; rewrite Hs; cbn [bind];
        [|discriminate]
  end.
  intros [= <- <-]. split; [|split; reflexivity].
  apply Forall_app. split; apply sqlite_ints_fit; assumption.
Qed.

Lemma search_books_too_large (db : Session.t) (q : SearchQuery.t) :
  ~ ints_fit q -> exists e, BookCRUD.search_books db q = Raise e.
Proof.
  intros Hno. destruct (BookCRUD.search_books db q) as [[books total]|e] eqn:E;
    [|exists e; reflexivity].
  apply search_books_inv in E as [Hfits _]. contradiction.
Qed.

Lemma text_ok_not_rejected (t : str) : text_ok t -> ~ text_rejected t.
Proof.
  intros (Hs & Hne & Hlen) [H0|Hlong].
  - rewrite Hs in H0. contradiction.
  - rewrite <- Hs, trim_strip_isspace, Hs in Hlong. lia.
Qed.

Lemma title_field_ok (t : str) : text_ok t -> BookBase.title_field t = Ok t.
Proof.
  intros Hok. pose proof Hok as (Hs & _).
  destruct (title_field_cases t) as [[Hrej _]|[_ E]].
  - exfalso. exact (text_ok_not_rejected t Hok Hrej).
  - rewrite E, Hs. reflexivity.
Qed.

Lemma response_of_valid_row (import_year : Z) (b : Book.t) :
  row_ok import_year b ->
  BookResponse.model_validate import_year b = Ok (as_response b).
Proof.
  intros (Ht & Ha & Hy). unfold BookResponse.model_validate.
  rewrite (title_field_ok _ Ht).
  change (BookBase.author_field (Book.author b))
    with (BookBase.title_field (Book.author b)).
  rewrite (title_field_ok _ Ha).
  destruct (year_field_schema import_year (Book.year b)) as [[Hout _]|[_ ->]];
    [|reflexivity].
  destruct Hout as (y & Ey & Hout). specialize (Hy y Ey). lia.
Qed.

Lemma model_validate_each_valid (import_year : Z) (books : list Book.t) :
  Forall (row_ok import_year) books ->
  main.model_validate_each import_year books
  = Ok (List.map as_response books).
Proof.
  induction 1 as [|b books Hb _ IH]; simpl; [reflexivity|].
  rewrite (response_of_valid_row _ _ Hb), IH. reflexivity.
Qed.

Lemma window_valid (P : Book.t -> Prop) (skip limit_ : Z)
    (rows table : list Book.t) :
  Forall P table ->
  (forall b, In b rows -> In b table) ->
  Forall P (limit limit_ (offset skip (order_by_id rows))).
Proof.
  intros Hall Hsub. rewrite Forall_forall in *. intros b Hb.
  apply limit_incl, offset_incl in Hb.
  apply (Permutation_in _ (order_by_id_perm _)) in Hb. auto.
Qed.

(** What the listing handler answers when it answers with success. *)
Lemma get_books_handler_inv (import_year : Z) (table : list Book.t)
    (page page_size : Z) (body : BooksResponse.t) :
  main.get_books import_year table page page_size = Success body ->
  1 <= page /\ 1 <= page_size <= 100
  /\ BooksResponse.total body = Z.of_nat (length table)
  /\ BooksResponse.total_pages body
     = main.get_books_total_pages (BooksResponse.total body) page_size.
Proof.
  unfold main.get_books, main.ge_, main.le_.
  destruct (Z.ltb_spec page 1); [discriminate|].
  destruct (Z.ltb_spec page_size 1); [discriminate|].
  destruct (Z.ltb_spec 100 page_size); [discriminate|].
  cbn [app].
  destruct (BookCRUD.get_books (Session.local table)
              ((page - 1) * page_size) page_size) as [[books total]|e] eqn:E;
    [|discriminate].
  apply get_books_inv in E as (_ & _ & _ & ->).
  destruct (main.model_validate_each import_year books); [|discriminate].
  intros [= <-]. simpl. repeat split; lia.
Qed.

(** When it does: on rows that pass the response schema, for a page whose
    offset fits. *)
Lemma get_books_handler_valid (import_year : Z) (table : list Book.t)
    (page page_size : Z) :
  Forall (row_ok import_year) table ->
  1 <= page ->
  1 <= page_size <= 100 ->
  (page - 1) * page_size < 2 ^ 63 ->
  main.get_books import_year table page page_size
  = Success
      (BooksResponse.mk
         (List.map as_response
            (limit page_size
               (offset ((page - 1) * page_size) (order_by_id table))))
         (Z.of_nat (length table)) page page_size
         (main.get_books_total_pages (Z.of_nat (length table)) page_size)).
Proof.
  intros Hall Hpage Hsize Hskip. unfold main.get_books, main.ge_, main.le_.
  destruct (Z.ltb_spec page 1); [lia|].
  destruct (Z.ltb_spec page_size 1); [lia|].
  destruct (Z.ltb_spec 100 page_size); [lia|].
  cbn [app].
  rewrite get_books_fits by (apply in_int64_range; nia).
  cbn [Session.working Session.local].
  rewrite model_validate_each_valid; [reflexivity|].
  apply (window_valid _ _ _ table table Hall). auto.
Qed.

Lemma search_books_handler_inv (import_year : Z) (table : list Book.t)
    (title author : option str) (year year_from year_to : option Z)
    (page page_size : Z) (body : BooksResponse.t) :
  main.search_books import_year table title author year year_from year_to
                    page page_size
  = Success body ->
  1 <= page /\ 1 <= page_size <= 100
  /\ BooksResponse.total body
     = Z.of_nat
         (length
            (filter
               (BookCRUD.and_
                  (BookCRUD.filters
                     (SearchQuery.mk title author year year_from year_to
                                     page page_size)))
               table))
  /\ BooksResponse.total_pages body
     = main.search_books_total_pages (BooksResponse.total body) page_size.
Proof.
  unfold main.search_books, main.optional_ge, main.ge_, main.le_.
  destruct (match year with Some z => _ | None => _ end); [|discriminate].
  destruct (match year_from with Some z => _ | None => _ end);
    [|discriminate].
  destruct (Z.ltb_spec page 1); [discriminate|].
  destruct (Z.ltb_spec page_size 1); [discriminate|].
  destruct (Z.ltb_spec 100 page_size); [discriminate|].
  cbn [app].
  destruct (BookCRUD.search_books _ _) as [[books total]|e] eqn:E;
    [|discriminate].
  apply search_books_inv in E as (_ & _ & ->).
  destruct (main.model_validate_each import_year books); [|discriminate].
  intros [= <-]. simpl. repeat split; lia.
Qed.

Lemma search_books_handler_valid (import_year : Z) (table : list Book.t)
    (title author : option str) (year year_from year_to : option Z)
    (page page_size : Z) :
  let q := SearchQuery.mk title author year year_from year_to
                          page page_size in
  Forall (row_ok import_year) table ->
  1 <= page ->
  1 <= page_size <= 100 ->
  (forall y, year = Some y -> 1000 <= y) ->
  (forall y, year_from = Some y -> 1000 <= y) ->
  search_fits q ->
  exists books total,
    BookCRUD.search_books (Session.local table) q = Ok (books, total)
    /\ main.search_books import_year table title author year year_from
                         year_to page page_size
       = Success
           (BooksResponse.mk (List.map as_response books) total page
              page_size (main.search_books_total_pages total page_size)).
Proof.
  intros q Hall Hpage Hsize Hy Hf Hfits.
  rewrite (search_books_fits _ q Hfits). eexists _, _.
  split; [reflexivity|].
  unfold main.search_books, main.optional_ge, main.ge_, main.le_.
  assert (Ey : match year with
               | Some z => if z <? 1000
                           then [mkError "year" greater_than_equal] else []
               | None => []
               end = []).
  { destruct year as [y|]; [|reflexivity].
    specialize (Hy y eq_refl). destruct (Z.ltb_spec y 1000); [lia|].
    reflexivity. }
  assert (Ef : match year_from with
               | Some z => if z <? 1000
                           then [mkError "year_from" greater_than_equal]
                           else []
               | None => []
               end = []).
  { destruct year_from as [y|]; [|reflexivity].
    specialize (Hf y eq_refl). destruct (Z.ltb_spec y 1000); [lia|].
    reflexivity. }
  rewrite Ey, Ef.
  destruct (Z.ltb_spec page 1); [lia|].
  destruct (Z.ltb_spec page_size 1); [lia|].
  destruct (Z.ltb_spec 100 page_size); [lia|].
  cbn [app]. fold q. rewrite (search_books_fits _ q Hfits).
  cbn [Session.working Session.local SearchQuery.page SearchQuery.page_size q].
  rewrite model_validate_each_valid; [reflexivity|].
  apply (window_valid _ _ _ _ table Hall).
  intros b Hb. apply filter_In in Hb. tauto.
Qed.

Lemma is_ceil_listing (total page_size : Z) :
  0 <= total -> 1 <= page_size ->
  is_ceil total page_size (main.get_books_total_pages total page_size).
Proof.
  intros Htotal Hsize. unfold is_ceil, main.get_books_total_pages.
  pose proof (Z.mul_div_le (total + page_size - 1) page_size) as Hle.
  pose proof (Z.mul_succ_div_gt (total + page_size - 1) page_size) as Hgt.
  lia.
Qed.

Lemma listing_of_nothing (page_size : Z) :
  1 <= page_size -> main.get_books_total_pages 0 page_size = 0.
Proof.
  intros Hsize. unfold main.get_books_total_pages. apply Z.div_small. lia.
Qed.

Lemma search_pages_are_listing_pages (total page_size : Z) :
  0 <= total -> 1 <= page_size ->
  main.search_books_total_pages total page_size
  = main.get_books_total_pages total page_size.
Proof.
  intros Htotal Hsize. unfold main.search_books_total_pages.
  destruct (Z.ltb_spec 0 total); [reflexivity|].
  replace total with 0 by lia. symmetry. apply listing_of_nothing. exact Hsize.
Qed.

Lemma row_ok_twenty_five : Forall (row_ok 2026) twenty_five_books.
Proof.
  unfold twenty_five_books. apply Forall_map, Forall_forall.
  intros i _. split; [|split].
  - split; [reflexivity|]. split; [discriminate|]. vm_compute. lia.
  - split; [reflexivity|]. split; [discriminate|]. vm_compute. lia.
  - intros y H. discriminate H.
Defined.

(** C2.  For every total >= 0 and page size in [[1, 100]], the listing
    handler and the search handler both report the ceiling of
    total / page_size as [total_pages]; both report 0 when the total is 0;
    a total of 25 with pages of 10 gives 3.  The total a handler reports is
    the number of rows (of rows that match, for the search), and whenever
    a handler answers with success its [total_pages] is that ceiling of its
    total; on rows that pass the response schema both answer with success
    for every page whose parameters fit. *)
Theorem total_pages_is_ceiling
    (import_year : Z) (table : list Book.t) (title author : option str)
    (year year_from year_to : option Z) (page page_size total : Z) :
  0 <= total ->
  1 <= page_size <= 100 ->
  let q := SearchQuery.mk title author year year_from year_to
                          page page_size in
  is_ceil total page_size (main.get_books_total_pages total page_size)
  /\ is_ceil total page_size (main.search_books_total_pages total page_size)
  /\ main.search_books_total_pages total page_size
     = main.get_books_total_pages total page_size
  /\ (total = 0 ->
      main.get_books_total_pages total page_size = 0
      /\ main.search_books_total_pages total page_size = 0)
  /\ main.get_books_total_pages 0 10 = 0
  /\ main.search_books_total_pages 0 10 = 0
  /\ main.get_books_total_pages 25 10 = 3
  /\ main.search_books_total_pages 25 10 = 3
  /\ (forall body,
        main.get_books import_year table page page_size = Success body ->
        BooksResponse.total body = Z.of_nat (length table)
        /\ is_ceil (BooksResponse.total body) page_size
                   (BooksResponse.total_pages body)
        /\ (BooksResponse.total body = 0 ->
            BooksResponse.total_pages body = 0))
  /\ (forall body,
        main.search_books import_year table title author year year_from
                          year_to page page_size
        = Success body ->
        BooksResponse.total body
        = Z.of_nat
            (length (filter (BookCRUD.and_ (BookCRUD.filters q)) table))
        /\ is_ceil (BooksResponse.total body) page_size
                   (BooksResponse.total_pages body)
        /\ (BooksResponse.total body = 0 ->
            BooksResponse.total_pages body = 0))
  /\ (Forall (row_ok import_year) table ->
      1 <= page -> (page - 1) * page_size < 2 ^ 63 ->
      exists body,
        main.get_books import_year table page page_size = Success body)
  /\ (Forall (row_ok import_year) table ->
      1 <= page ->
      (forall y, year = Some y -> 1000 <= y) ->
      (forall y, year_from = Some y -> 1000 <= y) ->
      search_fits q ->
      exists body,
        main.search_books import_year table title author year year_from
                          year_to page page_size
        = Success body).
Proof.
  intros Htotal Hsize q.
  pose proof (is_ceil_listing total page_size Htotal (proj1 Hsize)) as Hceil.
  pose proof (search_pages_are_listing_pages total page_size Htotal
                (proj1 Hsize)) as Hsame.
  split; [exact Hceil|]. split; [rewrite Hsame; exact Hceil|].
  split; [exact Hsame|]. split.
  { intros H0. rewrite Hsame. subst total.
    split; apply listing_of_nothing; lia. }
  do 4 (split; [reflexivity|]).
  split; [|split; [|split]].
  - intros body Hbody.
    apply get_books_handler_inv in Hbody as (_ & _ & Ht & Hp).
    rewrite Hp, Ht. split; [reflexivity|].
    split; [apply is_ceil_listing; lia|].
    intros H0. rewrite H0. apply listing_of_nothing. lia.
  - intros body Hbody.
    apply search_books_handler_inv in Hbody as (_ & _ & Ht & Hp).
    rewrite Hp, Ht. split; [reflexivity|].
    rewrite search_pages_are_listing_pages by lia.
    split; [apply is_ceil_listing; lia|].
    intros H0. fold q in H0 |- *. rewrite H0. apply listing_of_nothing. lia.
  - intros Hall Hpage Hskip. eexists.
    apply get_books_handler_valid; assumption.
  - intros Hall Hpage Hy Hf Hfits.
    destruct (search_books_handler_valid import_year table title author year
                year_from year_to page page_size Hall Hpage Hsize Hy Hf Hfits)
      as (books & total' & _ & E).
    eexists. exact E.
Qed.

Lemma total_pages_is_ceiling_witness :
  0 <= 25 /\ 1 <= 10 <= 100
  /\ is_ceil 25 10 (main.get_books_total_pages 25 10)
  /\ is_ceil 25 10 (main.search_books_total_pages 25 10)
  /\ (exists body,
        main.get_books 2026 twenty_five_books 1 10 = Success body
        /\ BooksResponse.total body = 25
        /\ BooksResponse.total_pages body = 3)
  /\ (exists body,
        main.search_books 2026 twenty_five_books None None None None None
                          1 10
        = Success body
        /\ BooksResponse.total body = 25
        /\ BooksResponse.total_pages body = 3).
Proof.
  assert (H25 : 0 <= 25) by lia.
  assert (H10 : 1 <= 10 <= 100) by lia.
  split; [exact H25|]. split; [exact H10|].
  destruct (total_pages_is_ceiling 2026 twenty_five_books None None None
              None None 1 10 25 H25 H10)
    as (H1 & H2 & _ & _ & _ & _ & _ & _ & Hlist & Hsearch & Hl & Hs).
  split; [exact H1|]. split; [exact H2|]. split.
  - destruct (Hl row_ok_twenty_five) as (body & E); [lia|reflexivity|].
    exists body. split; [exact E|].
    destruct (Hlist body E) as (Ht & Hc & _).
    split; [exact Ht|]. rewrite Ht in Hc. unfold is_ceil in Hc.
    change (Z.of_nat (length twenty_five_books)) with 25 in Hc. lia.
  - destruct (Hs row_ok_twenty_five) as (body & E).
    + lia.
    + intros y H. discriminate H.
    + intros y H. discriminate H.
    + repeat constructor.
    + exists body. split; [exact E|].
      destruct (Hsearch body E) as (Ht & Hc & _).
      assert (Ht' : BooksResponse.total body = 25) by (rewrite Ht; reflexivity).
      split; [exact Ht'|]. rewrite Ht' in Hc. unfold is_ceil in Hc. lia.
Defined.
(** ** Search *)

(** C10.  For every store and query, a title or an author given as the
    empty string is no criterion: books and total are those of the query
    without it. *)
Theorem search_empty_string_is_no_criterion
    (db : Session.t) (title author : option str)
    (year year_from year_to : option Z) (page page_size : Z) :
  BookCRUD.search_books db
    (SearchQuery.mk (Some []) author year year_from year_to page page_size)
  = BookCRUD.search_books db
      (SearchQuery.mk None author year year_from year_to page page_size)
  /\ BookCRUD.search_books db
       (SearchQuery.mk title (Some []) year year_from year_to page page_size)
     = BookCRUD.search_books db
         (SearchQuery.mk title None year year_from year_to page page_size).
Proof. split; reflexivity. Qed.






























(** The years of a query that has only year criteria, none of them 0. *)
Lemma year_filters_nonzero (year year_from year_to : option Z)
    (page page_size : Z) (r : Book.t) :
  year <> Some 0 -> year_from <> Some 0 -> year_to <> Some 0 ->
  BookCRUD.and_
    (BookCRUD.filters
       (SearchQuery.mk None None year year_from year_to page page_size)) r
  = true
  <-> (forall v, year = Some v -> Book.year r = Some v)
      /\ (forall v, year_from = Some v ->
                    exists y, Book.year r = Some y /\ v <= y)
      /\ (forall v, year_to = Some v ->
                    exists y, Book.year r = Some y /\ y <= v).
Proof.
  intros H1 H2 H3. unfold BookCRUD.and_, BookCRUD.filters, truthy_int.
  cbn [SearchQuery.title SearchQuery.author SearchQuery.year
       SearchQuery.year_from SearchQuery.year_to truthy_str app].
  destruct year as [v1|], year_from as [v2|], year_to as [v3|];
    repeat match goal with
      | |- context [?v =? 0] =>
          destruct (Z.eqb_spec v 0); [subst; congruence|]
      end;
    cbn [app forallb]; rewrite ?andb_true_r, ?andb_true_iff;
    unfold year_eq, year_ge, year_le, year_between;
    destruct (Book.year r) as [y|];
    rewrite ?andb_true_iff, ?Z.eqb_eq, ?Z.leb_le;
    (split;
     [ intros H; repeat split; intros v E; inversion E; subst;
       try discriminate; try (eexists; split; [reflexivity|]);
       try (f_equal); lia
     | intros (Ha & Hb & Hc);
       try (specialize (Ha _ eq_refl));
       try (destruct (Hb _ eq_refl) as (yb & Eb & Hb'));
       try (destruct (Hc _ eq_refl) as (yc & Ec & Hc'));
       try discriminate;
       repeat match goal with
         | E : Some _ = Some _ |- _ => injection E as E; subst
         end;
       repeat split; try reflexivity; try lia ]).
Qed.

(** C6 at [year_to = 0]: the criterion is dropped and every book is
    returned, although no stored year is at most 0. *)
Lemma search_year_to_zero_returns_all :
  BookCRUD.search_books (Session.local [war_and_peace; anna_karenina])
    (SearchQuery.mk None None None None (Some 0) 1 10)
  = Ok ([war_and_peace; anna_karenina], 2)
  /\ year_le (Book.year war_and_peace) 0 = false
  /\ year_le (Book.year anna_karenina) 0 = false
  /\ exists body,
       main.search_books 2026 [war_and_peace; anna_karenina]
                         None None None None (Some 0) 1 10
       = Success body
       /\ BooksResponse.total body = 2.
Proof.
  split; [reflexivity|]. split; [reflexivity|]. split; [reflexivity|].
  eexists. split; [vm_compute; reflexivity|reflexivity].
Qed.

(** ** Identifiers *)

Lemma max_rowid_bounds (rows : list Book.t) :
  match max_rowid rows with
  | None => rows = []
  | Some m => Forall (fun r => Book.id r <= m) rows
  end.
Proof.
  induction rows as [|r rows IH]; simpl; [reflexivity|].
  destruct (max_rowid rows) as [m|].
  - constructor; [lia|].
    eapply Forall_impl; [|exact IH]. simpl. intros r' H. lia.
  - subst rows. constructor; [lia|constructor].
Qed.

Lemma next_rowid_fresh (rows : list Book.t) :
  Forall (fun r => Book.id r < next_rowid rows) rows.
Proof.
  unfold next_rowid. pose proof (max_rowid_bounds rows) as H.
  destruct (max_rowid rows) as [m|].
  - eapply Forall_impl; [|exact H]. simpl. intros r' Hr. lia.
  - subst rows. constructor.
Qed.

Lemma increasing_app (table : list Book.t) (b : Book.t) :
  increasing table ->
  Forall (fun r => Book.id r < Book.id b) table ->
  increasing (table ++ [b]).
Proof.
  unfold increasing. induction table as [|r table IH]; simpl; intros Hs Hb.
  - repeat constructor.
  - apply StronglySorted_inv in Hs as [Hs Hr].
    apply Forall_cons_iff in Hb as [Hrb Hb].
    constructor; [apply IH; assumption|].
    rewrite map_app, Forall_app. split; [exact Hr|].
    repeat constructor. exact Hrb.
Qed.

Lemma increasing_filter (f : Book.t -> bool) (table : list Book.t) :
  increasing table -> increasing (filter f table).
Proof.
  unfold increasing. induction table as [|r table IH]; simpl; intros Hs;
    [constructor|].
  apply StronglySorted_inv in Hs as [Hs Hr].
  destruct (f r); simpl; [|apply IH; exact Hs].
  constructor; [apply IH; exact Hs|].
  rewrite Forall_map in *. rewrite Forall_forall in *.
  intros x Hx. apply filter_In in Hx as [Hx _]. apply Hr, Hx.
Qed.

(** A create either changes nothing or appends a row whose id is above
    every id in the table. *)
Lemma create_book_appends (current_year : Z) (table : list Book.t)
    (book : BookCreate.t) :
  let r := BookCRUD.create_book current_year (Session.local table) book in
  match snd r with
  | Ok b =>
      Session.close (fst r) = table ++ [b]
      /\ Book.id b = next_rowid table
      /\ Forall (fun row => Book.id row < Book.id b) table
  | Raise _ => Session.close (fst r) = table
  end.
Proof.
  unfold BookCRUD.create_book.
  destruct (Book.validate_title (BookBase.title book)) as [t|e];
    [|reflexivity].
  destruct (Book.validate_author (BookBase.author book)) as [a|e];
    [|reflexivity].
  destruct (Book.validate_year current_year (BookBase.year book)) as [y|e];
    [|reflexivity].
  simpl. repeat split. apply next_rowid_fresh.
Qed.

Lemma delete_book_filters (table : list Book.t) (book_id : Z) :
  exists f,
    Session.close (fst (BookCRUD.delete_book (Session.local table) book_id))
    = filter f table.
Proof.
  unfold BookCRUD.delete_book.
  assert (Hsame : table = filter (fun _ => true) table).
  { symmetry. apply forallb_filter_id. apply forallb_forall. reflexivity. }
  destruct (BookCRUD.get_book (Session.local table) book_id) as [[b|]|e];
    simpl.
  - eexists. reflexivity.
  - exists (fun _ => true). exact Hsame.
  - exists (fun _ => true). exact Hsame.
Qed.

Lemma run_increasing (current_year : Z) (ops : list op) :
  forall table, increasing table ->
                increasing (fst (run current_year table ops)).
Proof.
  induction ops as [|[book|book_id] ops IH]; intros table Hinc; simpl.
  - exact Hinc.
  - pose proof (create_book_appends current_year table book) as Hc.
    simpl in Hc.
    destruct (BookCRUD.create_book current_year (Session.local table) book)
      as [db r]. simpl in Hc.
    specialize (IH (Session.close db)).
    destruct (run current_year (Session.close db) ops) as [table' ids].
    simpl in *. apply IH.
    destruct r as [b|e].
    + destruct Hc as (-> & _ & Hb). apply increasing_app; assumption.
    + rewrite Hc. exact Hinc.
  - destruct (delete_book_filters table book_id) as (f & Hf).
    destruct (BookCRUD.delete_book (Session.local table) book_id)
      as [db deleted]. simpl in Hf.
    apply IH. rewrite Hf. apply increasing_filter. exact Hinc.
Qed.

(** C4, as amended.  For every sequence of create and delete operations
    on a table whose ids grow in insertion order (the empty table is one),
    the ids of the stored books still grow in insertion order afterwards,
    so they are pairwise distinct; and a create that follows returns one
    more than the largest id then stored (1 in an empty table) and appends
    its row.  Nothing keeps the id of a deleted book from being returned
    again. *)
Theorem ids_increase_among_stored_books
    (current_year : Z) (ops : list op) (table : list Book.t) :
  increasing table ->
  let table' := fst (run current_year table ops) in
  increasing table'
  /\ NoDup (List.map Book.id table')
  /\ forall book,
       let r := BookCRUD.create_book current_year (Session.local table')
                                     book in
       forall b, snd r = Ok b ->
                 Book.id b = next_rowid table'
                 /\ Forall (fun row => Book.id row < Book.id b) table'
                 /\ Session.close (fst r) = table' ++ [b].
Proof.
  intros Hinc table'. subst table'.
  pose proof (run_increasing current_year ops table Hinc) as Hrun.
  split; [exact Hrun|]. split.
  - apply StronglySorted_Sorted in Hrun.
    clear -Hrun. induction Hrun as [|x l Hs IH Hhd]; constructor; auto.
    intros Hin. apply Sorted_StronglySorted in Hs;
      [|intros ? ? ?; lia].
    destruct Hhd as [|y l Hxy]; [contradiction|].
    apply StronglySorted_inv in Hs as [_ Hy].
    destruct Hin as [->|Hin]; [lia|].
    rewrite Forall_forall in Hy. specialize (Hy x Hin). lia.
  - intros book r b Hb. subst r.
    pose proof (create_book_appends current_year
                  (fst (run current_year table ops)) book) as Hc.
    simpl in Hc. rewrite Hb in Hc. tauto.
Qed.

Lemma ids_increase_among_stored_books_witness :
  increasing []
  /\ increasing (fst (run 2026 [] [Create some_book; Create some_book;
                                   Delete 1; Create some_book])).
Proof.
  assert (H : increasing []) by constructor.
  split; [exact H|].
  apply (ids_increase_among_stored_books 2026
           [Create some_book; Create some_book; Delete 1; Create some_book]
           [] H).
Defined.

(** C4, as stated, fails: after the book with the largest id is deleted,
    the next create returns that id again. *)
Lemma deleted_id_is_reused :
  ~ ids_never_reused 2026 [Create some_book; Delete 1; Create some_book].
Proof.
  unfold ids_never_reused. vm_compute.
  intros H. apply StronglySorted_inv in H as [_ H].
  apply Forall_inv in H. discriminate H.
Qed.

(** * Further properties *)

(** ** Create, get, delete *)

Lemma find_app_first (f : Book.t -> bool) (l l' : list Book.t) :
  find f (l ++ l')
  = match find f l with
    | Some x => Some x
    | None => find f l'
    end.
Proof.
  induction l as [|r l IH]; simpl; [reflexivity|].
  destruct (f r); [reflexivity|exact IH].
Qed.

Lemma find_none_below (k : Z) (rows : list Book.t) :
  Forall (fun r => Book.id r < k) rows ->
  find (fun r => Book.id r =? k) rows = None.
Proof.
  induction 1 as [|r rows Hr _ IH]; simpl; [reflexivity|].
  destruct (Z.eqb_spec (Book.id r) k); [lia|exact IH].
Qed.

(** X1.  A book that [create_book] has stored under an id that is a
    64-bit integer is what [get_book] returns for that id; the id was not
    in the table before, every other id looks up as it did, and the table
    has one row more. *)
Theorem create_book_then_get_book
    (current_year : Z) (table : list Book.t) (book : BookCreate.t)
    (db : Session.t) (b : Book.t) :
  BookCRUD.create_book current_year (Session.local table) book = (db, Ok b) ->
  in_int64 (Book.id b) = true ->
  let table' := Session.close db in
  BookCRUD.get_book (Session.local table') (Book.id b) = Ok (Some b)
  /\ BookCRUD.get_book (Session.local table) (Book.id b) = Ok None
  /\ (forall k, k <> Book.id b ->
                BookCRUD.get_book (Session.local table') k
                = BookCRUD.get_book (Session.local table) k)
  /\ length table' = S (length table).
Proof.
  intros Hcreate Hfits table'. subst table'.
  pose proof (create_book_appends current_year table book) as Happ.
  cbv zeta in Happ. rewrite Hcreate in Happ. simpl in Happ.
  destruct Happ as (Hclose & _ & Hfresh). rewrite Hclose.
  pose proof (find_none_below _ _ Hfresh) as Hnone.
  rewrite !(get_book_fits _ _ Hfits). simpl.
  split; [|split; [rewrite Hnone; reflexivity|split]].
  - rewrite find_app_first, Hnone. simpl. rewrite Z.eqb_refl. reflexivity.
  - intros k Hk. unfold BookCRUD.get_book. simpl.
    destruct (sqlite_int k); simpl; [|reflexivity].
    rewrite find_app_first. simpl.
    destruct (find (fun r => Book.id r =? k) table); [reflexivity|].
    destruct (Z.eqb_spec (Book.id b) k); [congruence|reflexivity].
  - rewrite length_app. simpl. lia.
Qed.

Lemma create_book_then_get_book_witness :
  BookCRUD.create_book 2026 (Session.local [war_and_peace]) some_book
  = (Session.local [war_and_peace; Book.mk 2 (py "T") (py "A") None],
     Ok (Book.mk 2 (py "T") (py "A") None))
  /\ in_int64 2 = true
  /\ BookCRUD.get_book
       (Session.local [war_and_peace; Book.mk 2 (py "T") (py "A") None]) 2
     = Ok (Some (Book.mk 2 (py "T") (py "A") None)).
Proof.
  assert (H : BookCRUD.create_book 2026 (Session.local [war_and_peace])
                                   some_book
              = (Session.local
                   [war_and_peace; Book.mk 2 (py "T") (py "A") None],
                 Ok (Book.mk 2 (py "T") (py "A") None)))
    by reflexivity.
  assert (H2 : in_int64 (Book.id (Book.mk 2 (py "T") (py "A") None)) = true)
    by reflexivity.
  split; [exact H|]. split; [exact H2|].
  exact (proj1 (create_book_then_get_book 2026 [war_and_peace] some_book
                  _ _ H H2)).
Defined.

Lemma find_filter_other (j k : Z) (rows : list Book.t) :
  j <> k ->
  find (fun r => Book.id r =? j)
       (filter (fun r => negb (Book.id r =? k)) rows)
  = find (fun r => Book.id r =? j) rows.
Proof.
  intros Hjk. induction rows as [|r rows IH]; simpl; [reflexivity|].
  destruct (Z.eqb_spec (Book.id r) k) as [Ek|Ek]; simpl.
  - destruct (Z.eqb_spec (Book.id r) j); [congruence|exact IH].
  - destruct (Book.id r =? j); [reflexivity|exact IH].
Qed.

Lemma find_filter_same (k : Z) (rows : list Book.t) :
  find (fun r => Book.id r =? k)
       (filter (fun r => negb (Book.id r =? k)) rows)
  = None.
Proof.
  induction rows as [|r rows IH]; simpl; [reflexivity|].
  destruct (Z.eqb_spec (Book.id r) k) as [Ek|Ek]; simpl; [exact IH|].
  destruct (Z.eqb_spec (Book.id r) k); [contradiction|exact IH].
Qed.

Lemma find_none_id (k : Z) (rows : list Book.t) :
  find (fun r => Book.id r =? k) rows = None
  <-> ~ exists b, In b rows /\ Book.id b = k.
Proof.
  split.
  - intros Hnone (b & Hin & Hb).
    pose proof (find_none _ _ Hnone b Hin) as H. simpl in H.
    apply Z.eqb_neq in H. contradiction.
  - intros Hno. destruct (find _ rows) as [b|] eqn:E; [|reflexivity].
    exfalso. apply Hno. exists b. apply find_some in E as [Hin Hb].
    split; [exact Hin|apply Z.eqb_eq; exact Hb].
Qed.

(** X2.  For an id that is a 64-bit integer, [delete_book] answers [True]
    exactly when some row has the id and [False] otherwise; afterwards no
    row has it, a table without the id is left as it was, and a second
    delete of the same id answers [False] and changes nothing.  For an id
    that is not a 64-bit integer, the lookup raises [OverflowError] and the
    table is left as it was.  Every other id looks up as it did. *)
Theorem delete_book_removes (table : list Book.t) (book_id : Z) :
  let r := BookCRUD.delete_book (Session.local table) book_id in
  let table' := Session.close (fst r) in
  (in_int64 book_id = true ->
   (snd r = Ok true <-> exists b, In b table /\ Book.id b = book_id)
   /\ (snd r = Ok false <-> ~ exists b, In b table /\ Book.id b = book_id)
   /\ BookCRUD.get_book (Session.local table') book_id = Ok None
   /\ (snd r = Ok false -> table' = table)
   /\ BookCRUD.delete_book (Session.local table') book_id
      = (Session.local table', Ok false))
  /\ (in_int64 book_id = false ->
      r = (Session.local table,
           Raise Python_int_too_large_to_convert_to_SQLite_INTEGER))
  /\ (forall k, k <> book_id ->
                BookCRUD.get_book (Session.local table') k
                = BookCRUD.get_book (Session.local table) k).
Proof.
  cbv zeta. split; [|split].
  - intros Hfits. unfold BookCRUD.delete_book.
    rewrite !(get_book_fits _ _ Hfits). simpl.
    destruct (find (fun r => Book.id r =? book_id) table) as [b|] eqn:Hfind;
      simpl.
    + pose proof (find_id _ _ _ Hfind) as Hb. rewrite Hb.
      rewrite ?(get_book_fits _ _ Hfits). simpl.
      rewrite ?find_filter_same.
      assert (Hex : exists b, In b table /\ Book.id b = book_id).
      { exists b. split; [exact (proj1 (find_some _ _ Hfind))|exact Hb]. }
      split; [|split; [|split; [|split]]].
      * split; [intros _; exact Hex|reflexivity].
      * split; [discriminate|]. intros H. contradiction.
      * reflexivity.
      * discriminate.
      * reflexivity.
    + rewrite ?(get_book_fits _ _ Hfits). simpl. rewrite ?Hfind.
      pose proof (proj1 (find_none_id _ _) Hfind) as Hno.
      split; [|split; [|split; [|split]]].
      * split; [discriminate|]. intros H. contradiction.
      * split; [intros _; exact Hno|reflexivity].
      * reflexivity.
      * reflexivity.
      * reflexivity.
  - intros Hno. unfold BookCRUD.delete_book.
    rewrite (get_book_too_large _ _ Hno). reflexivity.
  - intros k Hk. unfold BookCRUD.delete_book, BookCRUD.get_book.
    destruct (sqlite_int book_id) as [v|e]; simpl; [|reflexivity].
    destruct (find (fun r => Book.id r =? book_id) table) as [b|] eqn:Hfind;
      simpl; [|reflexivity].
    destruct (sqlite_int k); simpl; [|reflexivity].
    rewrite (find_id _ _ _ Hfind). f_equal.
    apply find_filter_other. exact Hk.
Qed.

(** X3.  For an id (at least 1) that the lookup finds in no row: the get
    handler and the delete handler answer 404, and the update handler,
    given a body that the schema accepts, answers 500, the 404 it raises
    being caught by its own [except Exception]; none of them changes the
    table. *)
Theorem handlers_on_missing_id
    (import_year current_year : Z) (table : list Book.t) (book_id : Z)
    (body u : BookUpdate.t) :
  1 <= book_id ->
  BookCRUD.get_book (Session.local table) book_id = Ok None ->
  BookUpdate.model_validate import_year body = Ok u ->
  main.get_book import_year table book_id = HTTP_404_NOT_FOUND
  /\ main.delete_book table book_id = (table, HTTP_404_NOT_FOUND)
  /\ main.update_book import_year current_year table body book_id
     = (table, HTTP_500_INTERNAL_SERVER_ERROR)
  /\ BookCRUD.update_book current_year (Session.local table) book_id u
     = (Session.local table, Ok None).
Proof.
  intros Hid Hget Hbody.
  unfold main.get_book, main.delete_book, main.update_book, main.ge_,
    BookCRUD.delete_book, BookCRUD.update_book.
  destruct (Z.ltb_spec book_id 1); [lia|].
  rewrite Hbody, Hget. simpl. repeat split.
Qed.

Lemma handlers_on_missing_id_witness :
  1 <= 7
  /\ main.get_book 2026 [war_and_peace] 7 = HTTP_404_NOT_FOUND
  /\ main.update_book 2026 2026 [war_and_peace]
       (BookUpdate.mk None (Some (Some (py "X"))) None) 7
     = ([war_and_peace], HTTP_500_INTERNAL_SERVER_ERROR).
Proof.
  assert (H1 : 1 <= 7) by lia.
  split; [exact H1|].
  destruct (handlers_on_missing_id 2026 2026 [war_and_peace] 7
              (BookUpdate.mk None (Some (Some (py "X"))) None)
              (BookUpdate.mk None (Some (Some (py "X"))) None)
              H1 eq_refl eq_refl) as (Hg & _ & Hu & _).
  split; [exact Hg|exact Hu].
Defined.

(** X19.  For an id from 2^63 on, which the driver cannot bind: the get
    handler, the delete handler and, given a body that the schema accepts,
    the update handler answer 500, whatever the table holds, and none of
    them changes the table. *)
Theorem handlers_on_id_beyond_int64
    (import_year current_year : Z) (table : list Book.t) (book_id : Z)
    (body u : BookUpdate.t) :
  2 ^ 63 <= book_id ->
  BookUpdate.model_validate import_year body = Ok u ->
  main.get_book import_year table book_id = HTTP_500_INTERNAL_SERVER_ERROR
  /\ main.delete_book table book_id
     = (table, HTTP_500_INTERNAL_SERVER_ERROR)
  /\ main.update_book import_year current_year table body book_id
     = (table, HTTP_500_INTERNAL_SERVER_ERROR).
Proof.
  intros Hid Hbody.
  assert (Hno : in_int64 book_id = false).
  { unfold in_int64. apply andb_false_iff. right. apply Z.ltb_ge. exact Hid. }
  assert (H1 : (book_id <? 1) = false).
  { apply Z.ltb_ge. pose proof (Z.pow_pos_nonneg 2 63). lia. }
  unfold main.get_book, main.delete_book, main.update_book, main.ge_,
    BookCRUD.delete_book, BookCRUD.update_book.
  rewrite H1, Hbody, (get_book_too_large _ _ Hno). simpl. repeat split.
Qed.

Lemma handlers_on_id_beyond_int64_witness :
  2 ^ 63 <= 2 ^ 63
  /\ main.get_book 2026 [war_and_peace] (2 ^ 63)
     = HTTP_500_INTERNAL_SERVER_ERROR.
Proof.
  assert (H : 2 ^ 63 <= 2 ^ 63) by lia.
  split; [exact H|].
  exact (proj1 (handlers_on_id_beyond_int64 2026 2026 [war_and_peace]
                  (2 ^ 63)
                  (BookUpdate.mk None (Some (Some (py "X"))) None)
                  (BookUpdate.mk None (Some (Some (py "X"))) None)
                  H eq_refl)).
Defined.
(** ** Windows *)

(** X4.  A search whose parameters fit (the years of the filters in
    force, the page size and the offset of the page are 64-bit integers,
    and no LIKE pattern in force is longer than SQLite takes) returns; one
    with an integer that is not a 64-bit integer raises.  Of a search that
    returns, every book is a stored row that passes every filter of the
    query; the books come in ascending order of id, at most [page_size] of
    them; and the total is the number of stored rows that pass the filters,
    the same for every page and page size with which the search returns. *)
Theorem search_books_sound
    (db : Session.t) (title author : option str)
    (year year_from year_to : option Z) (page page_size : Z) :
  let q := SearchQuery.mk title author year year_from year_to
                          page page_size in
  (search_fits q ->
   exists books total, BookCRUD.search_books db q = Ok (books, total))
  /\ (~ ints_fit q -> exists e, BookCRUD.search_books db q = Raise e)
  /\ forall books total,
       BookCRUD.search_books db q = Ok (books, total) ->
       (forall b, In b books ->
                  In b (Session.working db)
                  /\ BookCRUD.and_ (BookCRUD.filters q) b = true)
       /\ StronglySorted by_id books
       /\ (0 <= page_size -> Z.of_nat (length books) <= page_size)
       /\ total
          = Z.of_nat (length (filter (BookCRUD.and_ (BookCRUD.filters q))
                                     (Session.working db)))
       /\ (forall page' page_size' books' total',
             BookCRUD.search_books db
               (SearchQuery.mk title author year year_from year_to
                               page' page_size')
             = Ok (books', total') ->
             total' = total).
Proof.
  cbv zeta. split; [|split].
  - intros Hfits. rewrite (search_books_fits _ _ Hfits).
    eexists. eexists. reflexivity.
  - apply search_books_too_large.
  - intros books total H.
    apply search_books_inv in H as (_ & -> & ->). simpl.
    split; [|split; [|split; [|split]]].
    + intros b Hb. apply limit_incl, offset_incl in Hb.
      apply (Permutation_in _ (order_by_id_perm _)) in Hb.
      apply filter_In in Hb. exact Hb.
    + apply limit_sorted, offset_sorted, order_by_id_sorted.
    + apply limit_length.
    + reflexivity.
    + intros page' page_size' books' total' H'.
      apply search_books_inv in H' as (_ & _ & ->). reflexivity.
Qed.

Lemma filter_all (rows : list Book.t) :
  filter (BookCRUD.and_ []) rows = rows.
Proof.
  induction rows as [|r rows IH]; simpl; [reflexivity|].
  rewrite IH. reflexivity.
Qed.

(** X5.  A search whose criteria are all absent, or taken as absent (an
    empty string, a year of 0), is the listing of the same window. *)
Theorem search_without_criteria_is_listing
    (db : Session.t) (title author : option str)
    (year year_from year_to : option Z) (page page_size : Z) :
  truthy_str title = None -> truthy_str author = None ->
  truthy_int year = None -> truthy_int year_from = None ->
  truthy_int year_to = None ->
  BookCRUD.search_books db
    (SearchQuery.mk title author year year_from year_to page page_size)
  = BookCRUD.get_books db ((page - 1) * page_size) page_size.
Proof.
  intros Ht Ha Hy Hf Hto.
  set (q := SearchQuery.mk title author year year_from year_to
                           page page_size).
  assert (Hpat : forall r, BookCRUD.tests_too_complex q r = false).
  { intros r. apply patterns_fit_tests. unfold BookCRUD.patterns, q.
    cbn [SearchQuery.title SearchQuery.author]. rewrite Ht, Ha.
    constructor. }
  unfold BookCRUD.search_books.
  rewrite (existsb_none _ (fun r => _ && BookCRUD.tests_too_complex q r))
    by (intros r; rewrite Hpat; apply andb_false_r).
  rewrite (existsb_none _ (BookCRUD.tests_too_complex q)) by exact Hpat.
  rewrite andb_false_r.
  unfold BookCRUD.get_books, BookCRUD.filters, BookCRUD.parameters, q.
  cbn [SearchQuery.title SearchQuery.author SearchQuery.year
       SearchQuery.year_from SearchQuery.year_to SearchQuery.page
       SearchQuery.page_size].
  rewrite Ht, Ha, Hy, Hf, Hto. cbn [app sqlite_ints bind BookCRUD.like_terms].
  rewrite filter_all.
  destruct (sqlite_int page_size); [|reflexivity]. cbn [bind].
  destruct (sqlite_int ((page - 1) * page_size)); reflexivity.
Qed.

Lemma search_without_criteria_is_listing_witness :
  truthy_str (Some []) = None /\ truthy_int (Some 0) = None
  /\ BookCRUD.search_books (Session.local [anna_karenina; war_and_peace])
       (SearchQuery.mk (Some []) None None None (Some 0) 1 1)
     = BookCRUD.get_books (Session.local [anna_karenina; war_and_peace]) 0 1.
Proof.
  split; [reflexivity|]. split; [reflexivity|].
  exact (search_without_criteria_is_listing
           (Session.local [anna_karenina; war_and_peace])
           (Some []) None None None (Some 0) 1 1
           eq_refl eq_refl eq_refl eq_refl eq_refl).
Defined.

Lemma firstn_plus (A : Type) (a b : nat) (l : list A) :
  firstn (a + b) l = firstn a l ++ firstn b (skipn a l).
Proof.
  revert l. induction a as [|a IH]; intros l; simpl; [reflexivity|].
  destruct l as [|x l]; simpl.
  - rewrite firstn_nil. reflexivity.
  - rewrite IH. reflexivity.
Qed.

Lemma windows_concat (A : Type) (n k : nat) (l : list A) :
  concat (List.map (fun p => firstn n (skipn (p * n) l)) (seq 0 k))
  = firstn (k * n) l.
Proof.
  induction k as [|k IH]; [reflexivity|].
  rewrite seq_S, map_app, concat_app, IH. simpl.
  rewrite app_nil_r, (Nat.add_comm n (k * n)). symmetry. apply firstn_plus.
Qed.

Lemma page_of_window (table : list Book.t) (n p : nat) :
  Z.of_nat n < 2 ^ 63 ->
  Z.of_nat (p * n) < 2 ^ 63 ->
  page_of table (Z.of_nat n) (S p)
  = Ok (firstn n (skipn (p * n) (order_by_id table))).
Proof.
  intros Hn Hp. unfold page_of.
  assert (E : (Z.of_nat (S p) - 1) * Z.of_nat n = Z.of_nat (p * n)) by lia.
  rewrite E, get_books_fits by (apply in_int64_range; lia).
  cbn [bind fst Session.working Session.local]. unfold limit, offset.
  destruct (Z.ltb_spec (Z.of_nat n) 0); [lia|].
  rewrite !Nat2Z.id. reflexivity.
Qed.

Lemma page_of_too_large (table : list Book.t) (page_size : Z) (p : nat) :
  2 ^ 63 <= (Z.of_nat p - 1) * page_size ->
  page_of table page_size p
  = Raise Python_int_too_large_to_convert_to_SQLite_INTEGER.
Proof.
  intros H. unfold page_of. rewrite get_books_too_large; [reflexivity|].
  left. unfold in_int64. apply andb_false_iff. right. apply Z.ltb_ge.
  exact H.
Qed.

Lemma order_by_id_length (table : list Book.t) :
  length (order_by_id table) = length table.
Proof. apply Permutation_length, order_by_id_perm. Qed.

Lemma Forall2_map_both {A B C : Type} (R : B -> C -> Prop)
    (f : A -> B) (g : A -> C) (l : list A) :
  (forall x, In x l -> R (f x) (g x)) ->
  Forall2 R (List.map f l) (List.map g l).
Proof.
  induction l as [|x l IH]; simpl; intros H; constructor.
  - apply H. left. reflexivity.
  - apply IH. intros y Hy. apply H. right. exact Hy.
Qed.

(** X6.  For a page size from 1 to 2^63 - 1 and a table of fewer than
    2^63 rows, each of the pages 1 to [total_pages] of the listing returns,
    and their books, one page after the other, are the whole table in
    ascending order of id, every row once; a page after the last one is
    empty as long as its offset is below 2^63, and raises [OverflowError]
    from there on. *)
Theorem pages_cover_the_table (table : list Book.t) (page_size : Z) :
  1 <= page_size < 2 ^ 63 ->
  Z.of_nat (length table) < 2 ^ 63 ->
  let total_pages :=
    main.get_books_total_pages (Z.of_nat (length table)) page_size in
  (exists pages,
     Forall2 (fun p books => page_of table page_size p = Ok books)
             (seq 1 (Z.to_nat total_pages)) pages
     /\ Permutation (concat pages) table
     /\ StronglySorted by_id (concat pages))
  /\ (forall p, (Z.to_nat total_pages < p)%nat ->
                (Z.of_nat p - 1) * page_size < 2 ^ 63 ->
                page_of table page_size p = Ok [])
  /\ (forall p, 2 ^ 63 <= (Z.of_nat p - 1) * page_size ->
                page_of table page_size p
                = Raise Python_int_too_large_to_convert_to_SQLite_INTEGER).
Proof.
  intros Hsize Hlen total_pages. subst total_pages.
  set (n := Z.to_nat page_size).
  assert (Hn : page_size = Z.of_nat n) by (unfold n; lia).
  set (k := Z.to_nat (main.get_books_total_pages
                        (Z.of_nat (length table)) page_size)).
  assert (Hdiv : 0 <= (Z.of_nat (length table) + page_size - 1) / page_size)
    by (apply Z.div_pos; lia).
  assert (Hk : (length table <= k * n)%nat).
  { unfold k, main.get_books_total_pages.
    pose proof (Z.mul_succ_div_gt (Z.of_nat (length table) + page_size - 1)
                  page_size) as Hgt.
    nia. }
  assert (Hlast : forall p, (p < k)%nat -> (p * n < length table)%nat).
  { intros p Hp. unfold k, main.get_books_total_pages in Hp.
    pose proof (Z.mul_div_le (Z.of_nat (length table) + page_size - 1)
                  page_size) as Hle.
    nia. }
  split; [|split].
  - exists (List.map (fun p => firstn n (skipn (p * n) (order_by_id table)))
                     (seq 0 k)).
    split; [|split].
    + rewrite <- seq_shift. rewrite Hn.
      apply (Forall2_map_both
               (fun p books => page_of table (Z.of_nat n) p = Ok books)).
      intros p Hp. apply in_seq in Hp.
      apply page_of_window; [lia|].
      specialize (Hlast p). lia.
    + rewrite windows_concat, firstn_all2
        by (rewrite order_by_id_length; exact Hk).
      apply order_by_id_perm.
    + rewrite windows_concat, firstn_all2
        by (rewrite order_by_id_length; exact Hk).
      apply order_by_id_sorted.
  - intros p Hp Hoff. destruct p as [|p]; [lia|].
    rewrite Hn in Hoff |- *. rewrite page_of_window by lia.
    rewrite skipn_all2; [rewrite firstn_nil; reflexivity|].
    rewrite order_by_id_length. nia.
  - intros p Hp. apply page_of_too_large. exact Hp.
Qed.

Lemma pages_cover_the_table_witness :
  1 <= 1 < 2 ^ 63
  /\ Z.of_nat (length [anna_karenina; war_and_peace]) < 2 ^ 63
  /\ page_of [anna_karenina; war_and_peace] 1 3 = Ok [].
Proof.
  assert (H1 : 1 <= 1 < 2 ^ 63) by (split; [lia|reflexivity]).
  assert (H2 : Z.of_nat (length [anna_karenina; war_and_peace]) < 2 ^ 63)
    by reflexivity.
  split; [exact H1|]. split; [exact H2|].
  destruct (pages_cover_the_table [anna_karenina; war_and_peace] 1 H1 H2)
    as (_ & Hpast & _).
  apply Hpast; [simpl; lia|reflexivity].
Defined.
(** ** What the validators leave in the table *)

Lemma validate_title_inv (v t : str) :
  Book.validate_title v = Ok t -> t = strip isspace v /\ text_valid v.
Proof.
  unfold Book.validate_title, text_valid.
  destruct (falsy v || falsy (strip isspace v)) eqn:E; [discriminate|].
  destruct (Nat.ltb_spec 255 (length (strip isspace v))); [discriminate|].
  intros [= <-]. apply orb_false_elim in E as [_ E].
  split; [reflexivity|]. split; [|assumption].
  intros H0. rewrite H0 in E. discriminate E.
Qed.

Lemma validate_author_inv (v t : str) :
  Book.validate_author v = Ok t -> t = strip isspace v /\ text_valid v.
Proof.
  unfold Book.validate_author, text_valid.
  destruct (falsy v || falsy (strip isspace v)) eqn:E; [discriminate|].
  destruct (Nat.ltb_spec 255 (length (strip isspace v))); [discriminate|].
  intros [= <-]. apply orb_false_elim in E as [_ E].
  split; [reflexivity|]. split; [|assumption].
  intros H0. rewrite H0 in E. discriminate E.
Qed.

Lemma validate_year_inv (current_year : Z) (v r : option Z) :
  Book.validate_year current_year v = Ok r ->
  r = v /\ forall y, v = Some y -> 1000 <= y <= current_year + 2.
Proof.
  unfold Book.validate_year. destruct v as [y|].
  - destruct (Z.ltb_spec y 1000); [discriminate|].
    destruct (Z.ltb_spec (current_year + 2) y); [discriminate|].
    simpl. intros [= <-]. split; [reflexivity|]. intros y' [= <-]. lia.
  - intros [= <-]. split; [reflexivity|discriminate].
Qed.

Lemma text_valid_ok (v : str) : text_valid v -> text_ok (strip isspace v).
Proof.
  intros [Hne Hlen]. split; [apply strip_isspace_idem|]. split; assumption.
Qed.

Lemma text_ok_valid (t : str) : text_ok t -> text_valid t.
Proof. intros (Hs & Hne & Hlen). unfold text_valid. rewrite Hs. auto. Qed.

(** X7.  What [validate_title] and [validate_author] return is the input
    stripped; it is not empty, has at most 255 characters and no space at
    either end, and the validator returns it unchanged when it is given it
    again. *)
Theorem validators_normalise (v t : str) :
  (Book.validate_title v = Ok t ->
   t = strip isspace v /\ text_ok t /\ Book.validate_title t = Ok t)
  /\ (Book.validate_author v = Ok t ->
      t = strip isspace v /\ text_ok t /\ Book.validate_author t = Ok t).
Proof.
  split; intros H;
    [apply validate_title_inv in H as [-> Hv]
    |apply validate_author_inv in H as [-> Hv]];
    pose proof (text_valid_ok v Hv) as Hok;
    (split; [reflexivity|]); (split; [exact Hok|]).
  - rewrite (validate_title_valid _ (text_ok_valid _ Hok)).
    rewrite strip_isspace_idem. reflexivity.
  - rewrite (validate_author_valid _ (text_ok_valid _ Hok)).
    rewrite strip_isspace_idem. reflexivity.
Qed.

Lemma validators_normalise_witness :
  Book.validate_title (py "  War and Peace ") = Ok (py "War and Peace")
  /\ Book.validate_title (py "War and Peace") = Ok (py "War and Peace").
Proof.
  assert (H : Book.validate_title (py "  War and Peace ")
              = Ok (py "War and Peace")) by reflexivity.
  split; [exact H|].
  exact (proj2 (proj2 (proj1 (validators_normalise _ _) H))).
Defined.

Lemma setattr_keeps_row_ok (current_year : Z) (b b' : Book.t) (it : item) :
  row_ok current_year b ->
  BookCRUD.setattr_if_not_None current_year b it = Ok b' ->
  row_ok current_year b' /\ Book.id b' = Book.id b.
Proof.
  intros Hok. pose proof Hok as (Ht & Ha & Hy).
  destruct it as [[v|]|[v|]|[y|]]; simpl;
    try (intros [= <-]; split; [exact Hok|reflexivity]).
  - unfold Book.set_title. destruct (Book.validate_title v) as [t|e] eqn:E;
      [|discriminate].
    simpl. intros [= <-]. apply validate_title_inv in E as [-> Hv].
    split; [|reflexivity].
    split; [exact (text_valid_ok v Hv)|]. split; [exact Ha|exact Hy].
  - unfold Book.set_author. destruct (Book.validate_author v) as [t|e] eqn:E;
      [|discriminate].
    simpl. intros [= <-]. apply validate_author_inv in E as [-> Hv].
    split; [|reflexivity].
    split; [exact Ht|]. split; [exact (text_valid_ok v Hv)|exact Hy].
  - unfold Book.set_year.
    destruct (Book.validate_year current_year (Some y)) as [r|e] eqn:E;
      [|discriminate].
    simpl. intros [= <-]. apply validate_year_inv in E as [-> Hr].
    split; [|reflexivity].
    split; [exact Ht|]. split; [exact Ha|exact Hr].
Qed.

Lemma setattr_loop_keeps_row_ok (current_year : Z) (update_data : list item) :
  forall b b' raised,
    row_ok current_year b ->
    BookCRUD.setattr_loop current_year b update_data = (b', raised) ->
    row_ok current_year b' /\ Book.id b' = Book.id b.
Proof.
  induction update_data as [|it rest IH]; intros b b' raised Hok; simpl.
  - intros [= <- _]. split; [exact Hok|reflexivity].
  - destruct (BookCRUD.setattr_if_not_None current_year b it) as [b1|e] eqn:E.
    + destruct (setattr_keeps_row_ok _ _ _ _ Hok E) as [Hok1 Hid1].
      intros Hloop. destruct (IH _ _ _ Hok1 Hloop) as [Hok' Hid'].
      split; [exact Hok'|congruence].
    + intros [= <- _]. split; [exact Hok|reflexivity].
Qed.

Lemma written_forall (P : Book.t -> Prop) (b' : Book.t)
    (table : list Book.t) :
  Forall P table -> P b' -> Forall P (written b' table).
Proof.
  intros Hall Hb. unfold written. apply Forall_map.
  eapply Forall_impl; [|exact Hall]. simpl. intros r Hr.
  destruct (Book.id r =? Book.id b'); assumption.
Qed.

Lemma written_ids (b' : Book.t) (table : list Book.t) :
  List.map Book.id (written b' table) = List.map Book.id table.
Proof.
  unfold written. rewrite map_map. apply map_ext. intros r.
  destruct (Z.eqb_spec (Book.id r) (Book.id b')); congruence.
Qed.

Lemma update_book_table (current_year : Z) (table : list Book.t)
    (book_id : Z) (u : BookUpdate.t) :
  let r := BookCRUD.update_book current_year (Session.local table)
                                book_id u in
  Session.close (fst r) = table
  \/ exists b b' raised,
       BookCRUD.get_book (Session.local table) book_id = Ok (Some b)
       /\ BookCRUD.setattr_loop current_year b
            (BookUpdate.dict_exclude_unset u) = (b', raised)
       /\ snd r = Ok (Some b')
       /\ Session.close (fst r) = written b' table.
Proof.
  cbv zeta. unfold BookCRUD.update_book.
  destruct (BookCRUD.get_book (Session.local table) book_id)
    as [[b|]|e] eqn:Hget; [|left; reflexivity|left; reflexivity].
  destruct (BookCRUD.setattr_loop current_year b
              (BookUpdate.dict_exclude_unset u)) as [b' [e|]] eqn:Hloop.
  - left. reflexivity.
  - right. exists b, b', None. simpl. auto.
Qed.

(** X8.  The repository keeps the table valid: when every row is as the
    validators leave it (title and author stripped, not empty, at most 255
    characters, year absent or in [[1000, current_year + 2]]), so is every
    row after a [create_book], an [update_book] or a [delete_book],
    whatever their arguments and outcome. *)
Theorem repository_keeps_rows_valid
    (current_year : Z) (table : list Book.t) :
  Forall (row_ok current_year) table ->
  (forall book,
      Forall (row_ok current_year)
        (Session.close
           (fst (BookCRUD.create_book current_year (Session.local table)
                                      book))))
  /\ (forall book_id u,
        Forall (row_ok current_year)
          (Session.close
             (fst (BookCRUD.update_book current_year (Session.local table)
                                        book_id u))))
  /\ (forall book_id,
        Forall (row_ok current_year)
          (Session.close
             (fst (BookCRUD.delete_book (Session.local table) book_id)))).
Proof.
  intros Hall. split; [|split].
  - intros book. unfold BookCRUD.create_book.
    destruct (Book.validate_title (BookBase.title book)) as [t|e] eqn:Et;
      [|exact Hall].
    destruct (Book.validate_author (BookBase.author book)) as [a|e] eqn:Ea;
      [|exact Hall].
    destruct (Book.validate_year current_year (BookBase.year book))
      as [y|e] eqn:Ey; [|exact Hall].
    simpl. apply Forall_app. split; [exact Hall|].
    constructor; [|constructor].
    apply validate_title_inv in Et as [-> Ht].
    apply validate_author_inv in Ea as [-> Ha].
    apply validate_year_inv in Ey as [-> Hy].
    split; [exact (text_valid_ok _ Ht)|].
    split; [exact (text_valid_ok _ Ha)|exact Hy].
  - intros book_id u.
    destruct (update_book_table current_year table book_id u)
      as [->|(b & b' & raised & Hget & Hloop & _ & ->)]; [exact Hall|].
    apply written_forall; [exact Hall|].
    apply get_book_found in Hget as [Hget _].
    apply find_some in Hget as [Hin _].
    rewrite Forall_forall in Hall.
    exact (proj1 (setattr_loop_keeps_row_ok _ _ _ _ _ (Hall _ Hin) Hloop)).
  - intros book_id.
    destruct (delete_book_filters table book_id) as (f & ->).
    rewrite Forall_forall in *. intros r Hr.
    apply filter_In in Hr as [Hr _]. exact (Hall r Hr).
Qed.

Lemma repository_keeps_rows_valid_witness :
  Forall (row_ok 2026) [war_and_peace]
  /\ Forall (row_ok 2026)
       (Session.close
          (fst (BookCRUD.update_book 2026 (Session.local [war_and_peace]) 1
                  (BookUpdate.mk (Some (Some (py " Voyna i mir ")))
                                 None (Some (Some 1869)))))).
Proof.
  assert (H : Forall (row_ok 2026) [war_and_peace]).
  { constructor; [|constructor].
    split; [|split].
    - split; [reflexivity|]. split; [discriminate|]. vm_compute. lia.
    - split; [reflexivity|]. split; [discriminate|]. vm_compute. lia.
    - intros y [= <-]. lia. }
  split; [exact H|].
  exact (proj1 (proj2 (repository_keeps_rows_valid 2026 [war_and_peace] H))
           1 _).
Defined.

(** X9.  [update_book] never changes an id nor the number of rows: the
    ids of the table, in order, are the same after it as before, whatever
    the patch and the outcome. *)
Theorem update_book_keeps_ids
    (current_year : Z) (table : list Book.t) (book_id : Z)
    (u : BookUpdate.t) :
  List.map Book.id
    (Session.close
       (fst (BookCRUD.update_book current_year (Session.local table)
                                  book_id u)))
  = List.map Book.id table.
Proof.
  destruct (update_book_table current_year table book_id u)
    as [->|(b & b' & raised & _ & _ & _ & ->)]; [reflexivity|].
  apply written_ids.
Qed.

(** ** Schemas and handlers *)

(** X10.  On a table whose rows are as the validators leave them, with
    years that the schema of this process accepts, the listing handler
    given a page of at least 1 and a page size in [[1, 100]] answers with
    success whenever the offset of the page is below 2^63: the books of
    the window as they are stored, the number of rows as total and its page
    count; from an offset of 2^63 on it answers 500; and the get handler
    answers a stored id of at least 1 with the row as it is stored. *)
Theorem handlers_show_valid_rows
    (import_year : Z) (table : list Book.t) (page page_size : Z) :
  Forall (row_ok import_year) table ->
  1 <= page ->
  1 <= page_size <= 100 ->
  ((page - 1) * page_size < 2 ^ 63 ->
   main.get_books import_year table page page_size
   = Success
       (BooksResponse.mk
          (List.map as_response
             (limit page_size
                (offset ((page - 1) * page_size) (order_by_id table))))
          (Z.of_nat (length table)) page page_size
          (main.get_books_total_pages (Z.of_nat (length table)) page_size)))
  /\ (2 ^ 63 <= (page - 1) * page_size ->
      main.get_books import_year table page page_size
      = HTTP_500_INTERNAL_SERVER_ERROR)
  /\ forall book_id b,
       1 <= book_id ->
       BookCRUD.get_book (Session.local table) book_id = Ok (Some b) ->
       main.get_book import_year table book_id = Success (as_response b).
Proof.
  intros Hall Hpage Hsize. split; [|split].
  - intros Hskip. apply get_books_handler_valid; assumption.
  - intros Hskip. unfold main.get_books, main.ge_, main.le_.
    destruct (Z.ltb_spec page 1); [lia|].
    destruct (Z.ltb_spec page_size 1); [lia|].
    destruct (Z.ltb_spec 100 page_size); [lia|].
    cbn [app]. rewrite get_books_too_large; [reflexivity|].
    left. unfold in_int64. apply andb_false_iff. right. apply Z.ltb_ge.
    exact Hskip.
  - intros book_id b Hid Hget. unfold main.get_book, main.ge_.
    destruct (Z.ltb_spec book_id 1); [lia|]. rewrite Hget.
    apply get_book_found in Hget as [Hget _].
    apply find_some in Hget as [Hin _]. rewrite Forall_forall in Hall.
    rewrite (response_of_valid_row _ _ (Hall b Hin)). reflexivity.
Qed.

Lemma row_ok_war_and_peace : row_ok 2026 war_and_peace.
Proof.
  split; [|split].
  - split; [reflexivity|]. split; [discriminate|]. vm_compute. lia.
  - split; [reflexivity|]. split; [discriminate|]. vm_compute. lia.
  - intros y [= <-]. lia.
Defined.

Lemma handlers_show_valid_rows_witness :
  Forall (row_ok 2026) [war_and_peace] /\ 1 <= 1 /\ 1 <= 10 <= 100
  /\ main.get_books 2026 [war_and_peace] 1 10
     = Success (BooksResponse.mk [as_response war_and_peace] 1 1 10 1).
Proof.
  assert (H : Forall (row_ok 2026) [war_and_peace])
    by (constructor; [exact row_ok_war_and_peace|constructor]).
  split; [exact H|]. split; [lia|]. split; [lia|].
  exact (proj1 (handlers_show_valid_rows 2026 [war_and_peace] 1 10 H
                  ltac:(lia) ltac:(lia))
           eq_refl).
Defined.

Lemma response_id (import_year : Z) (b : Book.t) (body : BookResponse.t) :
  BookResponse.model_validate import_year b = Ok body ->
  BookResponse.id body = Book.id b.
Proof.
  unfold BookResponse.model_validate.
  destruct (BookBase.title_field (Book.title b));
    destruct (BookBase.author_field (Book.author b));
    destruct (BookBase.year_field import_year (Book.year b));
    try discriminate.
  intros [= <-]. reflexivity.
Qed.

Lemma max_rowid_positive (rows : list Book.t) :
  Forall (fun r => 1 <= Book.id r) rows ->
  match max_rowid rows with
  | Some m => 1 <= m
  | None => True
  end.
Proof.
  induction 1 as [|r rows Hr _ IH]; simpl; [exact I|].
  destruct (max_rowid rows); lia.
Qed.

Lemma find_appended (rows : list Book.t) (b : Book.t) :
  Forall (fun r => Book.id r < Book.id b) rows ->
  find (fun r => Book.id r =? Book.id b) (rows ++ [b]) = Some b.
Proof.
  intros Hfresh. rewrite find_app_first, (find_none_below _ _ Hfresh).
  simpl. rewrite Z.eqb_refl. reflexivity.
Qed.

Lemma max_rowid_below (hi : Z) (rows : list Book.t) :
  Forall (fun r => Book.id r < hi) rows ->
  match max_rowid rows with
  | Some m => m < hi
  | None => True
  end.
Proof.
  induction 1 as [|r rows Hr _ IH]; simpl; [exact I|].
  destruct (max_rowid rows); lia.
Qed.

(** X11.  Round trip through the handlers: when the create handler answers
    with success on a table whose ids are all from 1 to 2^63 - 2, the get
    handler asked for the id of that answer returns the same body. *)
Theorem create_then_get_answers_the_same
    (import_year current_year : Z) (table table' : list Book.t)
    (title author : str) (year : option Z) (body : BookResponse.t) :
  Forall (fun r => 1 <= Book.id r < 2 ^ 63 - 1) table ->
  main.create_book import_year current_year table title author year
  = (table', Success body) ->
  main.get_book import_year table' (BookResponse.id body) = Success body.
Proof.
  intros Hids.
  assert (Hpos : Forall (fun r => 1 <= Book.id r) table)
    by (eapply Forall_impl; [|exact Hids]; simpl; intros r Hr; lia).
  assert (Hlow : Forall (fun r => Book.id r < 2 ^ 63 - 1) table)
    by (eapply Forall_impl; [|exact Hids]; simpl; intros r Hr; lia).
  unfold main.create_book.
  destruct (BookCreate.model_validate import_year title author year)
    as [book|errors]; [|discriminate].
  pose proof (create_book_appends current_year table book) as Happ.
  cbv zeta in Happ.
  destruct (BookCRUD.create_book current_year (Session.local table) book)
    as [db [b|e]]; simpl in Happ; [|discriminate].
  destruct (BookResponse.model_validate import_year b) as [body'|errors]
    eqn:Hresp; [|discriminate].
  intros [= <- <-]. destruct Happ as (-> & Hid & Hfresh).
  rewrite (response_id _ _ _ Hresp).
  unfold main.get_book, main.ge_.
  assert (Hge : 1 <= Book.id b < 2 ^ 63).
  { rewrite Hid. unfold next_rowid.
    pose proof (max_rowid_positive table Hpos).
    pose proof (max_rowid_below _ table Hlow).
    destruct (max_rowid table); lia. }
  destruct (Z.ltb_spec (Book.id b) 1); [lia|].
  rewrite get_book_fits by (apply in_int64_range; lia).
  cbn [Session.working Session.local].
  rewrite (find_appended _ _ Hfresh), Hresp. reflexivity.
Qed.

Lemma create_then_get_answers_the_same_witness :
  Forall (fun r => 1 <= Book.id r < 2 ^ 63 - 1) [war_and_peace]
  /\ main.get_book 2026 [war_and_peace; Book.mk 2 (py "T") (py "A") None] 2
     = Success (BookResponse.mk 2 (py "T") (py "A") None).
Proof.
  assert (H : Forall (fun r => 1 <= Book.id r < 2 ^ 63 - 1) [war_and_peace]).
  { constructor; [simpl; split; [lia|reflexivity]|constructor]. }
  split; [exact H|].
  exact (create_then_get_answers_the_same 2026 2026 [war_and_peace] _
           (py " T") (py "A ") None _ H eq_refl).
Defined.

Lemma model_validate_create_cases (import_year : Z) (title author : str)
    (year : option Z) (book : BookCreate.t) :
  BookCreate.model_validate import_year title author year = Ok book ->
  book = BookBase.mk (strip isspace title) (strip isspace author) year
  /\ ~ text_rejected title /\ ~ text_rejected author
  /\ ~ outside 1000 (import_year + 2) year.
Proof.
  unfold BookCreate.model_validate, BookBase.model_validate.
  destruct (title_field_cases title) as [[_ [tt Et]]|[Ht Et]];
    destruct (author_field_cases author) as [[_ [ta Ea]]|[Ha Ea]];
    destruct (year_field_schema import_year year) as [[_ [ty Ey]]|[Hy Ey]];
    rewrite Et, Ea, Ey; simpl; try discriminate.
  intros [= <-]. auto.
Qed.

(** X12.  The schema of create is at least as strict as the validators of
    the row for title and author: for a [BookCreate] that the schema has
    produced, [create_book] can only raise the year error, and when the
    year the schema read at import is not after the current one it does
    not raise at all and stores the fields of the [BookCreate] unchanged
    under the next rowid. *)
Theorem create_book_after_schema
    (import_year current_year : Z) (table : list Book.t)
    (title author : str) (year : option Z) (book : BookCreate.t) :
  BookCreate.model_validate import_year title author year = Ok book ->
  let r := BookCRUD.create_book current_year (Session.local table) book in
  let b := Book.mk (next_rowid table) (BookBase.title book)
                   (BookBase.author book) (BookBase.year book) in
  (r = (Session.local (table ++ [b]), Ok b)
   \/ r = (Session.local table,
           Raise (Year_must_be_between_1000_and (current_year + 2))))
  /\ (import_year <= current_year ->
      r = (Session.local (table ++ [b]), Ok b)).
Proof.
  intros Hschema.
  apply model_validate_create_cases in Hschema as (-> & Ht & Ha & Hy).
  cbv zeta. unfold BookCRUD.create_book. cbn -[strip].
  rewrite (validate_title_stripped title Ht).
  rewrite (validate_author_stripped author Ha). cbn -[strip].
  destruct (validate_year_cases current_year year) as [[Hc ->]|[Hc ->]];
    cbn -[strip].
  - split; [right; reflexivity|].
    intros Hle. exfalso. apply Hy.
    destruct Hc as (y & -> & Hc). exists y. split; [reflexivity|lia].
  - split; [left; reflexivity|reflexivity].
Qed.

Lemma create_book_after_schema_witness :
  BookCreate.model_validate 2026 (py " T ") (py "A") (Some 2028)
  = Ok (BookBase.mk (py "T") (py "A") (Some 2028))
  /\ 2026 <= 2027
  /\ BookCRUD.create_book 2027 (Session.local [])
       (BookBase.mk (py "T") (py "A") (Some 2028))
     = (Session.local [Book.mk 1 (py "T") (py "A") (Some 2028)],
        Ok (Book.mk 1 (py "T") (py "A") (Some 2028))).
Proof.
  assert (H : BookCreate.model_validate 2026 (py " T ") (py "A") (Some 2028)
              = Ok (BookBase.mk (py "T") (py "A") (Some 2028)))
    by reflexivity.
  split; [exact H|]. split; [lia|].
  exact (proj2 (create_book_after_schema 2026 2027 [] _ _ _ _ H)
           ltac:(lia)).
Defined.

Lemma optional_text_fixed (v r : option (option str)) :
  optional BookUpdate.title_field v = Ok r ->
  optional BookUpdate.title_field r = Ok r.
Proof.
  destruct v as [[t|]|]; simpl.
  - unfold BookUpdate.title_field, optional, constrained_str.
    destruct (Nat.ltb_spec (length (strip White_Space t)) 1); [discriminate|].
    destruct (Nat.ltb_spec 255 (length (strip White_Space t)));
      [discriminate|].
    simpl. intros [= <-]. simpl.
    rewrite (strip_stripped White_Space White_Space) by auto.
    destruct (Nat.ltb_spec (length (strip White_Space t)) 1); [lia|].
    destruct (Nat.ltb_spec 255 (length (strip White_Space t))); [lia|].
    reflexivity.
  - intros [= <-]. reflexivity.
  - intros [= <-]. reflexivity.
Qed.

(** X13.  The schemas normalise: what [BookCreate] validation returns
    validates to itself, and so does what [BookUpdate] validation returns,
    absent and null fields included. *)
Theorem schemas_are_idempotent (import_year : Z) :
  (forall title author year book,
      BookCreate.model_validate import_year title author year = Ok book ->
      BookCreate.model_validate import_year (BookBase.title book)
        (BookBase.author book) (BookBase.year book)
      = Ok book)
  /\ (forall raw u,
        BookUpdate.model_validate import_year raw = Ok u ->
        BookUpdate.model_validate import_year u = Ok u).
Proof.
  split.
  - intros title author year book Hschema.
    apply model_validate_create_cases in Hschema as (-> & Ht & Ha & Hy).
    unfold BookCreate.model_validate, BookBase.model_validate. cbn -[strip].
    rewrite (title_field_stored title Ht).
    change (BookBase.author_field (strip isspace author))
      with (BookBase.title_field (strip isspace author)).
    rewrite (title_field_stored author Ha).
    destruct (year_field_schema import_year year) as [[Hout _]|[_ ->]];
      [contradiction|reflexivity].
  - intros raw u Hschema.
    destruct (model_validate_update_cases import_year raw)
      as [(e & errors & E)|(t & a & y & E & Et & Ea & Ey)]; [congruence|].
    rewrite E in Hschema. injection Hschema as <-.
    unfold BookUpdate.model_validate. cbn.
    rewrite (optional_text_fixed _ _ Et).
    change BookUpdate.author_field with BookUpdate.title_field in Ea |- *.
    rewrite (optional_text_fixed _ _ Ea).
    pose proof Ey as Ey0. apply optional_year_ok in Ey0 as [-> _].
    rewrite Ey. reflexivity.
Qed.

Lemma schemas_are_idempotent_witness :
  BookUpdate.model_validate 2026
    (BookUpdate.mk (Some (Some (py " T "))) (Some None) None)
  = Ok (BookUpdate.mk (Some (Some (py "T"))) (Some None) None)
  /\ BookUpdate.model_validate 2026
       (BookUpdate.mk (Some (Some (py "T"))) (Some None) None)
     = Ok (BookUpdate.mk (Some (Some (py "T"))) (Some None) None).
Proof.
  assert (H : BookUpdate.model_validate 2026
                (BookUpdate.mk (Some (Some (py " T "))) (Some None) None)
              = Ok (BookUpdate.mk (Some (Some (py "T"))) (Some None) None))
    by reflexivity.
  split; [exact H|].
  exact (proj2 (schemas_are_idempotent 2026) _ _ H).
Defined.

(** ** Year criteria at the edges *)

Lemma and_app (fs gs : list (Book.t -> bool)) (r : Book.t) :
  BookCRUD.and_ (fs ++ gs) r = BookCRUD.and_ fs r && BookCRUD.and_ gs r.
Proof. apply forallb_app. Qed.

Lemma filter_none (f : Book.t -> bool) (rows : list Book.t) :
  (forall r, In r rows -> f r = false) -> filter f rows = [].
Proof.
  induction rows as [|r rows IH]; simpl; intros H; [reflexivity|].
  rewrite (H r (or_introl eq_refl)). apply IH. intros r' Hr'.
  apply H. right. exact Hr'.
Qed.

Lemma reversed_range_is_empty (title author : option str) (year : option Z)
    (year_from year_to page page_size : Z) (r : Book.t) :
  year_from <> 0 -> year_to <> 0 -> year_to < year_from ->
  BookCRUD.and_
    (BookCRUD.filters
       (SearchQuery.mk title author year (Some year_from) (Some year_to)
                       page page_size)) r
  = false.
Proof.
  intros Hf Hto Hlt. unfold BookCRUD.filters.
  cbn [SearchQuery.title SearchQuery.author SearchQuery.year
       SearchQuery.year_from SearchQuery.year_to truthy_int].
  destruct (Z.eqb_spec year_from 0); [contradiction|].
  destruct (Z.eqb_spec year_to 0); [contradiction|].
  rewrite !and_app. unfold year_between.
  assert (Hno : BookCRUD.and_
                  [fun r0 : Book.t =>
                     match Book.year r0 with
                     | Some y => (year_from <=? y) && (y <=? year_to)
                     | None => false
                     end] r = false).
  { unfold BookCRUD.and_. simpl. destruct (Book.year r) as [y|];
      [|reflexivity].
    destruct (Z.leb_spec year_from y); destruct (Z.leb_spec y year_to);
      simpl; try reflexivity. lia. }
  rewrite Hno, !andb_false_r. reflexivity.
Qed.

(** X14.  A year range given back to front (both ends not 0, [year_to]
    below [year_from]) matches nothing: no row passes its filter, whatever
    the other criteria, and on every table the search returns no book and
    a total of 0 when its integers (the years in force, the page size and
    the offset of the page) are 64-bit integers, and raises
    [OverflowError] when one of them is not. *)
Theorem search_reversed_range_is_empty
    (db : Session.t) (title author : option str) (year : option Z)
    (year_from year_to page page_size : Z) :
  year_from <> 0 -> year_to <> 0 -> year_to < year_from ->
  let q := SearchQuery.mk title author year (Some year_from) (Some year_to)
                          page page_size in
  (forall r, BookCRUD.and_ (BookCRUD.filters q) r = false)
  /\ (ints_fit q -> BookCRUD.search_books db q = Ok ([], 0))
  /\ (~ ints_fit q ->
      BookCRUD.search_books db q
      = Raise Python_int_too_large_to_convert_to_SQLite_INTEGER).
Proof.
  intros Hf Hto Hlt q.
  assert (Hnone : forall r, BookCRUD.and_ (BookCRUD.filters q) r = false)
    by (intros r; apply reversed_range_is_empty; assumption).
  assert (Hbound : BookCRUD.one_bound q = false).
  { unfold BookCRUD.one_bound, q.
    cbn [SearchQuery.year SearchQuery.year_from SearchQuery.year_to
         truthy_int].
    destruct (Z.eqb_spec year_from 0); [contradiction|].
    destruct (Z.eqb_spec year_to 0); [contradiction|].
    destruct (truthy_int year); reflexivity. }
  assert (Hrun : BookCRUD.search_books db q
                 = (_ <- sqlite_ints (BookCRUD.parameters q) ;;
                    _ <- sqlite_ints
                           [page_size; (page - 1) * page_size] ;;
                    Ok ([], 0))).
  { unfold BookCRUD.search_books.
    rewrite (existsb_none _ (fun r => _ && BookCRUD.tests_too_complex q r))
      by (intros r; unfold q, BookCRUD.years_only;
          cbn [SearchQuery.year SearchQuery.year_from SearchQuery.year_to
               SearchQuery.page SearchQuery.page_size];
          rewrite reversed_range_is_empty by assumption; reflexivity).
    rewrite Hbound, (filter_none _ _ (fun r _ => Hnone r)).
    cbn [andb BookCRUD.like_terms bind length order_by_id fold_right
         Z.of_nat SearchQuery.page SearchQuery.page_size q].
    unfold limit, offset. rewrite skipn_nil, firstn_nil.
    destruct (page_size <? 0); reflexivity. }
  split; [exact Hnone|]. rewrite Hrun. unfold ints_fit.
  cbn [SearchQuery.page SearchQuery.page_size q].
  rewrite Forall_app, <- !sqlite_ints_fit.
  destruct (sqlite_ints_cases (BookCRUD.parameters q)) as [Hp|Hp];
    rewrite Hp; cbn [bind].
  - destruct (sqlite_ints_cases [page_size; (page - 1) * page_size])
      as [Hw|Hw]; rewrite Hw; cbn [bind].
    + split; [reflexivity|]. intros Hno. exfalso. apply Hno.
      split; reflexivity.
    + split; [|reflexivity]. intros [_ H]. discriminate H.
  - split; [|reflexivity]. intros [H _]. discriminate H.
Qed.

Lemma ints_fit_small (title author : option str)
    (year year_from year_to : option Z) :
  (forall y, year = Some y -> in_int64 y = true) ->
  (forall y, year_from = Some y -> in_int64 y = true) ->
  (forall y, year_to = Some y -> in_int64 y = true) ->
  ints_fit (SearchQuery.mk title author year year_from year_to 1 10).
Proof.
  intros Hy Hf Ht. unfold ints_fit, BookCRUD.parameters.
  cbn [SearchQuery.year SearchQuery.year_from SearchQuery.year_to
       SearchQuery.page SearchQuery.page_size].
  rewrite !Forall_app. split; [split|].
  - destruct year as [y|]; [|constructor]. simpl.
    destruct (y =? 0); [constructor|].
    constructor; [apply Hy; reflexivity|constructor].
  - destruct year_from as [yf|]; destruct year_to as [yt|]; simpl;
      try destruct (yf =? 0); try destruct (yt =? 0);
      repeat constructor; auto.
  - repeat constructor.
Defined.

Lemma search_reversed_range_is_empty_witness :
  1900 <> 0 /\ 1800 <> 0 /\ 1800 < 1900
  /\ BookCRUD.search_books (Session.local [war_and_peace; anna_karenina])
       (SearchQuery.mk None None None (Some 1900) (Some 1800) 1 10)
     = Ok ([], 0).
Proof.
  assert (H1 : 1900 <> 0) by discriminate.
  assert (H2 : 1800 <> 0) by discriminate.
  assert (H3 : 1800 < 1900) by reflexivity.
  split; [exact H1|]. split; [exact H2|]. split; [exact H3|].
  apply (search_reversed_range_is_empty
           (Session.local [war_and_peace; anna_karenina])
           None None None 1900 1800 1 10 H1 H2 H3).
  apply ints_fit_small.
  - discriminate.
  - intros y [= <-]. reflexivity.
  - intros y [= <-]. reflexivity.
Defined.

(** X15.  A book stored without a year is left out of every search that
    has a year criterion in force (an exact year, a lower or an upper end,
    not 0): it passes none of the year filters, and it is in no result that
    such a search returns. *)
Theorem search_leaves_out_books_without_year
    (db : Session.t) (title author : option str)
    (year year_from year_to : option Z) (page page_size : Z) (b : Book.t) :
  Book.year b = None ->
  truthy_int year <> None \/ truthy_int year_from <> None
  \/ truthy_int year_to <> None ->
  let q := SearchQuery.mk title author year year_from year_to
                          page page_size in
  BookCRUD.and_ (BookCRUD.filters q) b = false
  /\ forall books total,
       BookCRUD.search_books db q = Ok (books, total) -> ~ In b books.
Proof.
  intros Hnone Hcrit q.
  assert (Hfalse : BookCRUD.and_ (BookCRUD.filters q) b = false).
  { subst q. unfold BookCRUD.filters.
    cbn [SearchQuery.title SearchQuery.author SearchQuery.year
         SearchQuery.year_from SearchQuery.year_to].
    rewrite !and_app.
    match goal with
    | |- _ && (_ && ?years) = false =>
        assert (Hyears : years = false);
          [|rewrite Hyears, !andb_false_r; reflexivity]
    end.
    unfold BookCRUD.and_.
    destruct (truthy_int year) as [y|];
      destruct (truthy_int year_from) as [yf|];
      destruct (truthy_int year_to) as [yt|];
      simpl; unfold year_eq, year_ge, year_le, year_between;
      rewrite ?Hnone; try reflexivity.
    destruct Hcrit as [H|[H|H]]; contradiction. }
  split; [exact Hfalse|].
  intros books total Hsearch Hin.
  apply search_books_inv in Hsearch as (_ & -> & _).
  apply limit_incl, offset_incl in Hin.
  apply (Permutation_in _ (order_by_id_perm _)) in Hin.
  apply filter_In in Hin as [_ Hin]. congruence.
Qed.

Lemma search_leaves_out_books_without_year_witness :
  Book.year (Book.mk 3 (py "T") (py "A") None) = None
  /\ BookCRUD.search_books
       (Session.local [Book.mk 3 (py "T") (py "A") None])
       (SearchQuery.mk None None None None (Some 2000) 1 10)
     = Ok ([], 0)
  /\ ~ In (Book.mk 3 (py "T") (py "A") None) [].
Proof.
  split; [reflexivity|]. split; [reflexivity|].
  refine (proj2 (search_leaves_out_books_without_year
                   (Session.local [Book.mk 3 (py "T") (py "A") None])
                   None None None None (Some 2000) 1 10
                   (Book.mk 3 (py "T") (py "A") None) eq_refl _)
            [] 0 eq_refl).
  right. right. discriminate.
Defined.
(** ** Delete through the handlers *)

(** X16.  For an id of at least 1 that a row has, the delete handler
    answers with success, after which the get handler answers 404 for that
    id and a second delete answers 404 and changes nothing. *)
Theorem delete_then_get_is_not_found
    (import_year : Z) (table : list Book.t) (book_id : Z) (b : Book.t) :
  1 <= book_id ->
  BookCRUD.get_book (Session.local table) book_id = Ok (Some b) ->
  let r := main.delete_book table book_id in
  snd r = Success tt
  /\ main.get_book import_year (fst r) book_id = HTTP_404_NOT_FOUND
  /\ main.delete_book (fst r) book_id = (fst r, HTTP_404_NOT_FOUND).
Proof.
  intros Hid Hget. cbv zeta.
  unfold main.delete_book, main.get_book, main.ge_, BookCRUD.delete_book.
  destruct (Z.ltb_spec book_id 1); [lia|]. rewrite Hget.
  cbn [fst snd negb Session.close Session.commit Session.delete
       Session.working Session.committed Session.local].
  apply get_book_found in Hget as [Hfind Hfits].
  pose proof (find_id _ _ _ Hfind) as Hb. rewrite Hb.
  rewrite !(get_book_fits _ _ Hfits). cbn [Session.working Session.local].
  rewrite find_filter_same. repeat split.
Qed.

Lemma delete_then_get_is_not_found_witness :
  1 <= 1
  /\ BookCRUD.get_book (Session.local [war_and_peace; anna_karenina]) 1
     = Ok (Some war_and_peace)
  /\ main.delete_book [war_and_peace; anna_karenina] 1
     = ([anna_karenina], Success tt)
  /\ main.get_book 2026 [anna_karenina] 1 = HTTP_404_NOT_FOUND.
Proof.
  assert (H1 : 1 <= 1) by lia.
  split; [exact H1|]. split; [reflexivity|]. split; [reflexivity|].
  exact (proj1 (proj2 (delete_then_get_is_not_found 2026
                         [war_and_peace; anna_karenina] 1 war_and_peace
                         H1 eq_refl))).
Defined.

(** ** Repeating an update; the ids a table can hold *)

Lemma patched_twice (b : Book.t) (u : BookUpdate.t) :
  patched (patched b u) u = patched b u.
Proof.
  unfold patched. simpl.
  destruct (BookUpdate.title u) as [[t|]|];
    destruct (BookUpdate.author u) as [[a|]|];
    destruct (BookUpdate.year u) as [[y|]|]; reflexivity.
Qed.

Lemma written_twice (b' : Book.t) (table : list Book.t) :
  written b' (written b' table) = written b' table.
Proof.
  unfold written. rewrite map_map. apply map_ext. intros r.
  destruct (Z.eqb_spec (Book.id r) (Book.id b')) as [E|E].
  - rewrite Z.eqb_refl. reflexivity.
  - destruct (Z.eqb_spec (Book.id r) (Book.id b')); [contradiction|].
    reflexivity.
Qed.

(** X17.  An update that succeeds can be repeated without effect: on the
    table it has left, the same patch for the same id succeeds again,
    returns the same book and leaves the same table. *)
Theorem update_book_twice
    (current_year : Z) (table : list Book.t) (book_id : Z)
    (u : BookUpdate.t) (b : Book.t) :
  BookCRUD.get_book (Session.local table) book_id = Ok (Some b) ->
  patch_valid current_year u ->
  let r := BookCRUD.update_book current_year (Session.local table)
                                book_id u in
  BookCRUD.update_book current_year (Session.local (Session.close (fst r)))
                       book_id u
  = r.
Proof.
  intros Hget Hvalid r. subst r.
  rewrite (update_book_valid current_year table book_id u b Hget Hvalid).
  cbn [fst Session.close Session.local Session.committed].
  assert (Hget' : BookCRUD.get_book
                    (Session.local (written (patched b u) table)) book_id
                  = Ok (Some (patched b u))).
  { apply (get_book_written table book_id b); [exact Hget|reflexivity]. }
  rewrite (update_book_valid current_year _ book_id u _ Hget' Hvalid).
  rewrite patched_twice, written_twice. reflexivity.
Qed.

Lemma update_book_twice_witness :
  BookCRUD.get_book (Session.local [war_and_peace]) 1
  = Ok (Some war_and_peace)
  /\ BookCRUD.update_book 2026
       (Session.local
          (Session.close
             (fst (BookCRUD.update_book 2026 (Session.local [war_and_peace])
                     1 (BookUpdate.mk (Some (Some (py " War ")))
                                      None None)))))
       1 (BookUpdate.mk (Some (Some (py " War "))) None None)
     = BookCRUD.update_book 2026 (Session.local [war_and_peace]) 1
         (BookUpdate.mk (Some (Some (py " War "))) None None).
Proof.
  split; [reflexivity|].
  apply (update_book_twice 2026 [war_and_peace] 1
           (BookUpdate.mk (Some (Some (py " War "))) None None)
           war_and_peace eq_refl).
  split; [|split].
  - intros v H. injection H as <-. split; vm_compute; [discriminate|lia].
  - intros v H. discriminate H.
  - intros y H. discriminate H.
Defined.

Lemma next_rowid_positive (table : list Book.t) :
  Forall (fun r => 1 <= Book.id r) table -> 1 <= next_rowid table.
Proof.
  intros Hpos. unfold next_rowid.
  pose proof (max_rowid_positive table Hpos).
  destruct (max_rowid table); lia.
Qed.

(** X18.  Ids start at 1: in a table filled by creates and deletes from
    the empty table (or from any table whose ids are at least 1) every
    stored id is at least 1, and so is every id a create returned, so the
    bound [ge=1] of the handlers turns away no stored book. *)
Theorem stored_ids_are_positive
    (current_year : Z) (ops : list op) (table : list Book.t) :
  Forall (fun r => 1 <= Book.id r) table ->
  let r := run current_year table ops in
  Forall (fun row => 1 <= Book.id row) (fst r)
  /\ Forall (fun k => 1 <= k) (snd r).
Proof.
  cbv zeta. revert table.
  induction ops as [|[book|book_id] ops IH]; intros table Hpos; simpl.
  - split; [exact Hpos|constructor].
  - pose proof (create_book_appends current_year table book) as Happ.
    cbv zeta in Happ.
    destruct (BookCRUD.create_book current_year (Session.local table) book)
      as [db r]. simpl in Happ.
    specialize (IH (Session.close db)).
    destruct (run current_year (Session.close db) ops) as [table' ids].
    simpl in *. destruct r as [b|e].
    + destruct Happ as (Hclose & Hid & _).
      assert (Hb : 1 <= Book.id b)
        by (rewrite Hid; apply next_rowid_positive; exact Hpos).
      destruct IH as [IH1 IH2].
      { rewrite Hclose. apply Forall_app. split; [exact Hpos|].
        constructor; [exact Hb|constructor]. }
      split; [exact IH1|]. constructor; assumption.
    + apply IH. rewrite Happ. exact Hpos.
  - destruct (delete_book_filters table book_id) as (f & Hf).
    destruct (BookCRUD.delete_book (Session.local table) book_id)
      as [db deleted]. simpl in Hf.
    apply IH. rewrite Hf. rewrite Forall_forall in *.
    intros x Hx. apply filter_In in Hx as [Hx _]. exact (Hpos x Hx).
Qed.

Lemma stored_ids_are_positive_witness :
  Forall (fun r => 1 <= Book.id r) []
  /\ Forall (fun k => 1 <= k)
       (snd (run 2026 [] [Create some_book; Delete 1; Create some_book])).
Proof.
  assert (H : Forall (fun r : Book.t => 1 <= Book.id r) []) by constructor.
  split; [exact H|].
  exact (proj2 (stored_ids_are_positive 2026
                  [Create some_book; Delete 1; Create some_book] [] H)).
Defined.

(** ** Patterns that LIKE does not take *)

Lemma too_complex_not_empty (title : str) :
  too_complex (percent :: title ++ [percent]) = true ->
  truthy_str (Some title) = Some title.
Proof.
  destruct title as [|c title]; [discriminate|]. reflexivity.
Qed.

(** X20.  A search by a title criterion whose pattern, the criterion
    between two [%], has more than 50000 bytes in UTF-8, and without a year
    criterion, raises [OperationalError] on every table that has a row,
    whatever the page, and the handler answers 500; on the empty table it
    returns no book and a total of 0, no row being there to test. *)
Theorem search_pattern_too_complex
    (import_year : Z) (table : list Book.t) (title : str)
    (author : option str) (page page_size : Z) :
  too_complex (percent :: title ++ [percent]) = true ->
  let q := SearchQuery.mk (Some title) author None None None
                          page page_size in
  (table <> [] ->
   BookCRUD.search_books (Session.local table) q
   = Raise LIKE_or_GLOB_pattern_too_complex)
  /\ (table <> [] -> 1 <= page -> 1 <= page_size <= 100 ->
      main.search_books import_year table (Some title) author None None
                        None page page_size
      = HTTP_500_INTERNAL_SERVER_ERROR)
  /\ (ints_fit q -> BookCRUD.search_books (Session.local []) q = Ok ([], 0)).
Proof.
  intros Hlong q.
  pose proof (too_complex_not_empty title Hlong) as Htitle.
  assert (Hraise : table <> [] ->
                   BookCRUD.search_books (Session.local table) q
                   = Raise LIKE_or_GLOB_pattern_too_complex).
  { intros Hrows. destruct table as [|r table]; [contradiction|].
    unfold BookCRUD.search_books, BookCRUD.parameters,
      BookCRUD.tests_too_complex, q.
    cbn [SearchQuery.title SearchQuery.author SearchQuery.year
         SearchQuery.year_from SearchQuery.year_to truthy_int app
         sqlite_ints bind Session.working Session.local existsb].
    rewrite Htitle. cbv zeta. rewrite Hlong. reflexivity. }
  split; [exact Hraise|]. split.
  - intros Hrows Hpage Hsize.
    unfold main.search_books, main.optional_ge, main.ge_, main.le_.
    destruct (Z.ltb_spec page 1); [lia|].
    destruct (Z.ltb_spec page_size 1); [lia|].
    destruct (Z.ltb_spec 100 page_size); [lia|].
    cbn [app]. fold q. rewrite (Hraise Hrows). reflexivity.
  - unfold ints_fit. intros Hfits. apply Forall_app in Hfits as [_ Hw].
    apply sqlite_ints_fit in Hw.
    unfold BookCRUD.search_books, BookCRUD.parameters, BookCRUD.one_bound, q.
    cbn [SearchQuery.title SearchQuery.author SearchQuery.year
         SearchQuery.year_from SearchQuery.year_to SearchQuery.page
         SearchQuery.page_size truthy_int app
         Session.working Session.local existsb filter].
    cbn [SearchQuery.page SearchQuery.page_size q] in Hw. rewrite Hw.
    cbn [sqlite_ints bind BookCRUD.like_terms andb length order_by_id
         fold_right Z.of_nat].
    unfold limit, offset. rewrite skipn_nil, firstn_nil.
    destruct (page_size <? 0); reflexivity.
Qed.

Lemma search_pattern_too_complex_witness :
  too_complex (percent :: List.repeat 97%N (N.to_nat 49999) ++ [percent])
  = true
  /\ BookCRUD.search_books (Session.local [war_and_peace])
       (SearchQuery.mk (Some (List.repeat 97%N (N.to_nat 49999))) None None
                       None None 1 10)
     = Raise LIKE_or_GLOB_pattern_too_complex.
Proof.
  assert (H : too_complex
                (percent :: List.repeat 97%N (N.to_nat 49999) ++ [percent])
              = true) by (vm_compute; reflexivity).
  split; [exact H|].
  apply (proj1 (search_pattern_too_complex 2026 [war_and_peace]
                  (List.repeat 97%N (N.to_nat 49999)) None 1 10 H)).
  discriminate.
Defined.
